(** * timewarp: the distorted focus timer and the task store

    A shallow embedding of the two stateful cores of the application:

    - [FocusTimer]: the countdown of the [FocusTimer] component, whose
      interval callback scales the real elapsed time by a multiplier that
      depends on the distortion level;
    - [TaskStore]: the zustand store of [useTaskStore.ts] (tasks, focus
      sessions, statistics, achievements), each action a function from
      store to store;
    - [TaskManager]: the [handleProcrastinate] handler of the task list.

    JavaScript numbers are modelled exactly: timestamps, counters and levels
    that the code only ever adds integers to are [Z]; quantities that are
    divided ([elapsed], durations, the timer) are rationals [Q], so that the
    arithmetic of the source is followed without rounding; the rounding of
    IEEE doubles is not modelled, and the theorems about such quantities are
    single steps and inequalities.  Every read of the
    clock ([new Date()], [Date.now()]) and every fresh [uuidv4()] is an
    explicit argument of the action that performs it. *)

From Stdlib Require Import ZArith QArith Qabs Lqa Lia List String Bool.
Import ListNotations.

Open Scope Q_scope.

(** ** JavaScript number helpers *)

(** [x < y] on numbers, as a boolean. *)
Definition Qltb (x y : Q) : bool := negb (Qle_bool y x).

(** [Math.max(a, b)]. *)
Definition Math_max (a b : Q) : Q := if Qle_bool a b then b else a.

(** [Math.min(a, b)]. *)
Definition Math_min (a b : Q) : Q := if Qle_bool a b then a else b.

(** * The focus timer *)

Module FocusTimer.

(** [TIMER_STATES]. *)
Inductive TimerState : Type :=
  | IDLE | RUNNING | PAUSED | COMPLETED | DISTORTED.

(** The component's state hooks and the [lastTickTime] ref.  Times of
    [Date.now()] are integer milliseconds; the countdown is in seconds. *)
Record Timer : Type := mkTimer {
  timeRemaining : Q;
  initialTime : Q;
  timerState : TimerState;
  distortionLevel : Q;
  lastTickTime : option Z
}.

(** The [useState] initial values: 25 minutes, idle, no distortion. *)
Definition initialTimer : Timer :=
  mkTimer (25 * 60) (25 * 60) IDLE 0 None.

(** The branch taken while [timerState === DISTORTED]: the curve m(d). *)
Definition distortedMultiplier (distortionLevel : Q) : Q :=
  if Qltb distortionLevel 30 then (1 # 2) + distortionLevel / 60
  else if Qltb distortionLevel 60 then 1 + (distortionLevel - 30) / 30
  else if Qltb distortionLevel 80 then 2 + (distortionLevel - 60) / 20
  else if Qltb distortionLevel 95 then 3 + (distortionLevel - 80) / (15 # 2)
  else -1.

(** [let timeMultiplier = 1; if (timerState === DISTORTED) { ... }]. *)
Definition timeMultiplier (st : TimerState) (distortionLevel : Q) : Q :=
  match st with
  | DISTORTED => distortedMultiplier distortionLevel
  | _ => 1
  end.

(** Seconds between two readings of [Date.now()]. *)
Definition elapsedSeconds (now last : Z) : Q := inject_Z (now - last) / 1000.

(** One firing of the [setInterval] callback at time [now].  The interval
    only exists while the timer is running or distorted.  The boolean tells
    whether the completion branch ran ([onComplete] and [endFocusSession]). *)
Definition tick (now : Z) (t : Timer) : Timer * bool :=
  match timerState t with
  | RUNNING | DISTORTED =>
      match lastTickTime t with
      | None =>
          (mkTimer (timeRemaining t) (initialTime t) (timerState t)
             (distortionLevel t) (Some now), false)
      | Some last =>
          let elapsed := elapsedSeconds now last in
          let mult := timeMultiplier (timerState t) (distortionLevel t) in
          let prev := timeRemaining t in
          let newValue := Math_max 0 (prev - elapsed * mult) in
          let finished := Qle_bool newValue 0 && Qltb 0 prev in
          (mkTimer newValue (initialTime t)
             (if finished then COMPLETED else timerState t)
             (distortionLevel t) (Some now), finished)
      end
  | _ => (t, false)
  end.

(** [startTimer]; its call of the store's [startFocusSession] is the
    store action of that name. *)
Definition startTimer (now : Z) (t : Timer) : Timer :=
  mkTimer (timeRemaining t) (initialTime t) RUNNING (distortionLevel t)
    (Some now).

Definition pauseTimer (t : Timer) : Timer :=
  mkTimer (timeRemaining t) (initialTime t) PAUSED (distortionLevel t) None.

Definition resumeTimer (now : Z) (t : Timer) : Timer :=
  mkTimer (timeRemaining t) (initialTime t) RUNNING (distortionLevel t)
    (Some now).

Definition resetTimer (t : Timer) : Timer :=
  mkTimer (initialTime t) (initialTime t) IDLE 0 None.

Definition toggleTimeDistortion (t : Timer) : Timer :=
  match timerState t with
  | RUNNING =>
      mkTimer (timeRemaining t) (initialTime t) DISTORTED (distortionLevel t)
        (lastTickTime t)
  | DISTORTED =>
      mkTimer (timeRemaining t) (initialTime t) RUNNING (distortionLevel t)
        (lastTickTime t)
  | _ => t
  end.

(** [Math.min(100, prev + 10)], only while distorted. *)
Definition increaseDistortion (t : Timer) : Timer :=
  match timerState t with
  | DISTORTED =>
      mkTimer (timeRemaining t) (initialTime t) (timerState t)
        (Math_min 100 (distortionLevel t + 10)) (lastTickTime t)
  | _ => t
  end.

(** [Math.max(0, prev - 10)], only while distorted. *)
Definition decreaseDistortion (t : Timer) : Timer :=
  match timerState t with
  | DISTORTED =>
      mkTimer (timeRemaining t) (initialTime t) (timerState t)
        (Math_max 0 (distortionLevel t - 10)) (lastTickTime t)
  | _ => t
  end.

Definition setTimerDuration (duration : Q) (t : Timer) : Timer :=
  match timerState t with
  | IDLE =>
      mkTimer duration duration (timerState t) (distortionLevel t)
        (lastTickTime t)
  | _ => t
  end.

(** Continuity of a curve at a point, in the usual epsilon-delta form. *)
Definition continuous_at (f : Q -> Q) (b : Q) : Prop :=
  forall eps, 0 < eps ->
    exists delta, 0 < delta /\
      forall d, Qabs (d - b) < delta -> Qabs (f d - f b) < eps.

(** The values of a curve just below [b] approach [v]. *)
Definition left_limit (f : Q -> Q) (b v : Q) : Prop :=
  forall eps, 0 < eps ->
    exists delta, 0 < delta /\
      forall d, b - delta < d -> d < b -> Qabs (f d - v) < eps.

(** The state in which the reverse branch is reached through the
    component's own controls: started at time 0, one tick after a second,
    distortion switched on and raised ten times to 100. *)
Definition reversedTimer : Timer :=
  Nat.iter 10 increaseDistortion
    (toggleTimeDistortion (fst (tick 1000 (startTimer 0 initialTimer)))).

End FocusTimer.

(** * The task store *)

Module TaskStore.

Inductive TaskStatus : Type :=
  | pending | in_progress | completed | running_away.

Inductive FocusState : Type :=
  | idle | focus | break | distorted.

Definition TaskStatus_eqb (a b : TaskStatus) : bool :=
  match a, b with
  | pending, pending | in_progress, in_progress
  | completed, completed | running_away, running_away => true
  | _, _ => false
  end.

(** A [Date] is its [getTime()], integer milliseconds. *)
Definition Date : Type := Z.
Bind Scope Z_scope with Date.

Record Position : Type := mkPosition { x : Q; y : Q; z : Q }.

Module Task.
Record t : Type := mk {
  id : string;
  title : string;
  description : string;
  status : TaskStatus;
  createdAt : Date;
  deadline : option Date;
  completedAt : option Date;
  lastWorkedOn : option Date;
  timeSpent : Q;
  importance : Z;
  procrastinationLevel : Z;
  position : Position
}.
End Task.

Module FocusSession.
Record t : Type := mk {
  id : string;
  taskId : string;
  startTime : Date;
  endTime : option Date;
  duration : Q;
  distortionLevel : Q
}.
End FocusSession.

Module Achievement.
Record t : Type := mk {
  id : string;
  title : string;
  description : string;
  unlockedAt : option Date;
  isUnlocked : bool
}.
End Achievement.

Module ProductivityStats.
Record t : Type := mk {
  totalTasksCompleted : Z;
  totalTimeSpent : Q;
  longestStreak : Z;
  currentStreak : Z;
  lastActiveDay : option Date;
  achievements : list Achievement.t
}.
End ProductivityStats.

(** [Partial<Task>]: a field is [None] when the patch has no such key.  An
    optional field of [Task] can be present in the patch with the value
    [undefined], hence the nested options. *)
Module TaskUpdate.
Record t : Type := mk {
  id : option string;
  title : option string;
  description : option string;
  status : option TaskStatus;
  createdAt : option Date;
  deadline : option (option Date);
  completedAt : option (option Date);
  lastWorkedOn : option (option Date);
  timeSpent : option Q;
  importance : option Z;
  procrastinationLevel : option Z;
  position : option Position
}.

(** The patch with no key at all. *)
Definition empty : t :=
  mk None None None None None None None None None None None None.
End TaskUpdate.

(** The argument of [addTask]: a [Task] without the fields that [addTask]
    fills in itself. *)
Module TaskData.
Record t : Type := mk {
  title : string;
  description : string;
  deadline : option Date;
  completedAt : option Date;
  lastWorkedOn : option Date;
  importance : Z
}.
End TaskData.

(** The data fields of the store (its actions are the functions below). *)
Record Store : Type := mkStore {
  tasks : list Task.t;
  focusSessions : list FocusSession.t;
  currentFocusState : FocusState;
  currentSession : option FocusSession.t;
  productivityStats : ProductivityStats.t;
  achievements : list Achievement.t
}.

Definition dquote : string := String (Ascii.ascii_of_nat 34) EmptyString.

Definition PREDEFINED_ACHIEVEMENTS : list Achievement.t :=
  [ Achievement.mk "first-task" "Baby Steps"
      "Created your first task. Congratulations on the bare minimum!"
      None false;
    Achievement.mk "five-tasks-completed" "Productivity Padawan"
      "Completed 5 tasks. The force of productivity is starting to flow through you."
      None false;
    Achievement.mk "procrastination-master" "Procrastination Grand Master"
      "Successfully avoided a task for so long it achieved sentience and ran away."
      None false;
    Achievement.mk "time-bender" "Time Lord"
      "Spent over 4 hours in the time distortion zone without going insane."
      None false;
    Achievement.mk "deadline-warrior" "Deadline Warrior"
      ("Completed 3 tasks within 10 minutes of their deadlines. We call this "
         ++ dquote ++ "efficient" ++ dquote ++ ".")
      None false ].

(** The store as [create] builds it. *)
Definition initialStore : Store :=
  mkStore [] [] idle None
    (ProductivityStats.mk 0 0 0 0 None [])
    PREDEFINED_ACHIEVEMENTS.

(** [value ?? fallback] for a patch key. *)
Definition patched {A : Type} (key : option A) (old : A) : A :=
  match key with
  | Some v => v
  | None => old
  end.

(** [{ ...task, ...taskUpdate }]. *)
Definition applyUpdate (task : Task.t) (u : TaskUpdate.t) : Task.t :=
  Task.mk
    (patched (TaskUpdate.id u) (Task.id task))
    (patched (TaskUpdate.title u) (Task.title task))
    (patched (TaskUpdate.description u) (Task.description task))
    (patched (TaskUpdate.status u) (Task.status task))
    (patched (TaskUpdate.createdAt u) (Task.createdAt task))
    (patched (TaskUpdate.deadline u) (Task.deadline task))
    (patched (TaskUpdate.completedAt u) (Task.completedAt task))
    (patched (TaskUpdate.lastWorkedOn u) (Task.lastWorkedOn task))
    (patched (TaskUpdate.timeSpent u) (Task.timeSpent task))
    (patched (TaskUpdate.importance u) (Task.importance task))
    (patched (TaskUpdate.procrastinationLevel u)
       (Task.procrastinationLevel task))
    (patched (TaskUpdate.position u) (Task.position task)).

(** [{ ...task, status }]. *)
Definition withStatus (task : Task.t) (st : TaskStatus) : Task.t :=
  Task.mk (Task.id task) (Task.title task) (Task.description task) st
    (Task.createdAt task) (Task.deadline task) (Task.completedAt task)
    (Task.lastWorkedOn task) (Task.timeSpent task) (Task.importance task)
    (Task.procrastinationLevel task) (Task.position task).

(** [{ ...task, status: 'completed', completedAt }]. *)
Definition markCompleted (task : Task.t) (at_ : Date) : Task.t :=
  Task.mk (Task.id task) (Task.title task) (Task.description task) completed
    (Task.createdAt task) (Task.deadline task) (Some at_)
    (Task.lastWorkedOn task) (Task.timeSpent task) (Task.importance task)
    (Task.procrastinationLevel task) (Task.position task).

(** [set({ tasks })] and its siblings: zustand merges the given keys into
    the current state. *)
Definition setTasks (l : list Task.t) (s : Store) : Store :=
  mkStore l (focusSessions s) (currentFocusState s) (currentSession s)
    (productivityStats s) (achievements s).

Definition setAchievements (l : list Achievement.t) (s : Store) : Store :=
  mkStore (tasks s) (focusSessions s) (currentFocusState s)
    (currentSession s) (productivityStats s) l.

Definition setProductivityStats (p : ProductivityStats.t) (s : Store)
  : Store :=
  mkStore (tasks s) (focusSessions s) (currentFocusState s)
    (currentSession s) p (achievements s).

(** [{ ...achievement, isUnlocked: true, unlockedAt: new Date() }]. *)
Definition unlock (now : Date) (a : Achievement.t) : Achievement.t :=
  Achievement.mk (Achievement.id a) (Achievement.title a)
    (Achievement.description a) (Some now) true.

(** [updateAchievement(achievementId)], the clock reading [now]. *)
Definition updateAchievement (now : Date) (achievementId : string)
  (s : Store) : Store :=
  setAchievements
    (map (fun achievement =>
            if String.eqb (Achievement.id achievement) achievementId
            then unlock now achievement
            else achievement)
       (achievements s))
    s.

(** [achievements.find(a => a.id === name)]. *)
Definition findAchievement (name : string) (l : list Achievement.t)
  : option Achievement.t :=
  find (fun a => String.eqb (Achievement.id a) name) l.

(** The guard used by [addTask] and [completeTask]:
    [if (achievement && !achievement.isUnlocked) updateAchievement(name)]. *)
Definition unlockIfLocked (now : Date) (name : string)
  (found : option Achievement.t) (s : Store) : Store :=
  match found with
  | Some achievement =>
      if negb (Achievement.isUnlocked achievement)
      then updateAchievement now name s
      else s
  | None => s
  end.

(** [addTask(taskData)]: [newId] is the [uuidv4()], [now] the task's
    [new Date()], [pos] the three [Math.random()] coordinates, [unlockNow]
    the clock reading of [updateAchievement]. *)
Definition addTask (newId : string) (now : Date) (pos : Position)
  (unlockNow : Date) (taskData : TaskData.t) (s : Store) : Store :=
  let newTask :=
    Task.mk newId (TaskData.title taskData) (TaskData.description taskData)
      pending now (TaskData.deadline taskData)
      (TaskData.completedAt taskData) (TaskData.lastWorkedOn taskData)
      0 (TaskData.importance taskData) 0%Z pos in
  let s1 := setTasks (tasks s ++ [newTask]) s in
  unlockIfLocked unlockNow "first-task"
    (findAchievement "first-task" (achievements s1)) s1.

(** [updateTask(id, taskUpdate)]. *)
Definition updateTask (id : string) (taskUpdate : TaskUpdate.t) (s : Store)
  : Store :=
  setTasks
    (map (fun task =>
            if String.eqb (Task.id task) id
            then applyUpdate task taskUpdate
            else task)
       (tasks s))
    s.

(** [deleteTask(id)]. *)
Definition deleteTask (id : string) (s : Store) : Store :=
  setTasks
    (filter (fun task => negb (String.eqb (Task.id task) id)) (tasks s)) s.

(** [ProductivityStats] with [totalTasksCompleted] replaced. *)
Definition withTotalTasksCompleted (p : ProductivityStats.t) (n : Z)
  : ProductivityStats.t :=
  ProductivityStats.mk n (ProductivityStats.totalTimeSpent p)
    (ProductivityStats.longestStreak p) (ProductivityStats.currentStreak p)
    (ProductivityStats.lastActiveDay p) (ProductivityStats.achievements p).

(** [ProductivityStats] with [totalTimeSpent] replaced. *)
Definition withTotalTimeSpent (p : ProductivityStats.t) (q : Q)
  : ProductivityStats.t :=
  ProductivityStats.mk (ProductivityStats.totalTasksCompleted p) q
    (ProductivityStats.longestStreak p) (ProductivityStats.currentStreak p)
    (ProductivityStats.lastActiveDay p) (ProductivityStats.achievements p).

(** [updatedTasks.filter(t => t.status === 'completed').length]. *)
Definition completedCount (l : list Task.t) : nat :=
  List.length (filter (fun t => TaskStatus_eqb (Task.status t) completed) l).

(** [completeTask(id)].  The updater passed to [set] runs on the state
    [s]; the nested [updateAchievement] writes the store first, and the
    keys the updater returns ([tasks], [productivityStats], both computed
    from [s]) are then merged over it. *)
Definition completeTask (completedAt : Date) (unlockNow : Date)
  (id : string) (s : Store) : Store :=
  let updatedTasks :=
    map (fun task =>
           if String.eqb (Task.id task) id
           then markCompleted task completedAt
           else task)
      (tasks s) in
  let s1 :=
    if (5 <=? completedCount updatedTasks)%nat
    then unlockIfLocked unlockNow "five-tasks-completed"
           (findAchievement "five-tasks-completed" (achievements s)) s
    else s in
  setProductivityStats
    (withTotalTasksCompleted (productivityStats s)
       (ProductivityStats.totalTasksCompleted (productivityStats s) + 1)%Z)
    (setTasks updatedTasks s1).

(** [makeTaskRunAway(id)]. *)
Definition makeTaskRunAway (now : Date) (id : string) (s : Store) : Store :=
  updateAchievement now "procrastination-master"
    (setTasks
       (map (fun task =>
               if String.eqb (Task.id task) id
               then withStatus task running_away
               else task)
          (tasks s))
       s).

(** [startFocusSession(taskId)]. *)
Definition startFocusSession (newId : string) (now : Date)
  (taskId : string) (s : Store) : Store :=
  let newSession := FocusSession.mk newId taskId now None 0 0 in
  mkStore (tasks s) (focusSessions s) focus (Some newSession)
    (productivityStats s) (achievements s).

(** [endFocusSession()]: [now] is [endTime], [unlockNow] the clock reading
    of [updateAchievement]. *)
Definition endFocusSession (now : Date) (unlockNow : Date) (s : Store)
  : Store :=
  match currentSession s with
  | None => s
  | Some session =>
      let duration :=
        inject_Z (now - FocusSession.startTime session) / 1000 in
      let completedSession :=
        FocusSession.mk (FocusSession.id session)
          (FocusSession.taskId session) (FocusSession.startTime session)
          (Some now) duration (FocusSession.distortionLevel session) in
      let s1 :=
        match find (fun t => String.eqb (Task.id t)
                               (FocusSession.taskId session)) (tasks s) with
        | Some task =>
            updateTask (Task.id task)
              (TaskUpdate.mk None None None None None None None
                 (Some (Some now)) (Some (Task.timeSpent task + duration))
                 None None None)
              s
        | None => s
        end in
      let s2 :=
        mkStore (tasks s1) (focusSessions s1 ++ [completedSession]) idle None
          (withTotalTimeSpent (productivityStats s1)
             (ProductivityStats.totalTimeSpent (productivityStats s1)
              + duration))
          (achievements s1) in
      if Qltb 75 (FocusSession.distortionLevel session)
         && Qltb 14400 duration
      then updateAchievement unlockNow "time-bender" s2
      else s2
  end.

(** [setDistortionLevel(level)]. *)
Definition setDistortionLevel (level : Q) (s : Store) : Store :=
  match currentSession s with
  | Some session =>
      mkStore (tasks s) (focusSessions s)
        (if Qltb 50 level then distorted else focus)
        (Some (FocusSession.mk (FocusSession.id session)
                 (FocusSession.taskId session)
                 (FocusSession.startTime session)
                 (FocusSession.endTime session)
                 (FocusSession.duration session) level))
        (productivityStats s) (achievements s)
  | None => s
  end.

(** [setFocusState(state)]. *)
Definition setFocusState (st : FocusState) (s : Store) : Store :=
  mkStore (tasks s) (focusSessions s) st (currentSession s)
    (productivityStats s) (achievements s).

(** [status] is one of the two final statuses. *)
Definition isTerminal (st : TaskStatus) : bool :=
  match st with
  | completed | running_away => true
  | pending | in_progress => false
  end.

(** The calendar day (UTC) of a timestamp. *)
Definition dayOf (d : Date) : Z := (d / 86400000)%Z.

(** The streak rule in the words of the specification (section 4.4): what
    [currentStreak] should be after a session is closed at [now]. *)
Definition spec_currentStreak (now : Date) (p : ProductivityStats.t) : Z :=
  match ProductivityStats.lastActiveDay p with
  | Some last =>
      if (dayOf last + 1 =? dayOf now)%Z
      then (ProductivityStats.currentStreak p + 1)%Z
      else if (dayOf last =? dayOf now)%Z
           then ProductivityStats.currentStreak p
           else 1%Z
  | None => 1%Z
  end.

(** [longestStreak := max(longestStreak, currentStreak)], in the words of
    the specification. *)
Definition spec_longestStreak (now : Date) (p : ProductivityStats.t) : Z :=
  Z.max (ProductivityStats.longestStreak p) (spec_currentStreak now p).

(** The three streak fields of the statistics. *)
Definition streaks (p : ProductivityStats.t) : Z * Z * option Date :=
  (ProductivityStats.currentStreak p, ProductivityStats.longestStreak p,
   ProductivityStats.lastActiveDay p).

End TaskStore.

(** * The task list component *)

Module TaskManager.

Import TaskStore.

(** [handleProcrastinate(taskId)]; [tasks] is the store's list as the
    component last rendered it, [now] the clock of [updateAchievement]. *)
Definition handleProcrastinate (now : Date) (taskId : string) (s : Store)
  : Store :=
  match find (fun t => String.eqb (Task.id t) taskId) (tasks s) with
  | None => s
  | Some task =>
      let newProcrastinationLevel :=
        Z.min 100 (Task.procrastinationLevel task + 20) in
      if (100 <=? newProcrastinationLevel)%Z
      then makeTaskRunAway now taskId s
      else updateTask taskId
             (TaskUpdate.mk None None None None None None None None None
                None (Some newProcrastinationLevel) None)
             s
  end.

End TaskManager.

(** * The actions a client of the store can perform *)

Module App.

Import TaskStore.

(** One call into the store (or the task list's procrastinate handler),
    with the clock readings and fresh ids it consumes. *)
Inductive Action : Type :=
  | AddTask (newId : string) (now : Date) (pos : Position)
      (unlockNow : Date) (taskData : TaskData.t)
  | UpdateTask (id : string) (taskUpdate : TaskUpdate.t)
  | DeleteTask (id : string)
  | CompleteTask (completedAt unlockNow : Date) (id : string)
  | MakeTaskRunAway (now : Date) (id : string)
  | HandleProcrastinate (now : Date) (taskId : string)
  | StartFocusSession (newId : string) (now : Date) (taskId : string)
  | EndFocusSession (now unlockNow : Date)
  | SetDistortionLevel (level : Q)
  | SetFocusState (st : FocusState)
  | UpdateAchievement (now : Date) (achievementId : string).

Definition perform (a : Action) (s : Store) : Store :=
  match a with
  | AddTask newId now pos unlockNow taskData =>
      addTask newId now pos unlockNow taskData s
  | UpdateTask id taskUpdate => updateTask id taskUpdate s
  | DeleteTask id => deleteTask id s
  | CompleteTask completedAt unlockNow id =>
      completeTask completedAt unlockNow id s
  | MakeTaskRunAway now id => makeTaskRunAway now id s
  | HandleProcrastinate now taskId =>
      TaskManager.handleProcrastinate now taskId s
  | StartFocusSession newId now taskId =>
      startFocusSession newId now taskId s
  | EndFocusSession now unlockNow => endFocusSession now unlockNow s
  | SetDistortionLevel level => setDistortionLevel level s
  | SetFocusState st => setFocusState st s
  | UpdateAchievement now achievementId =>
      updateAchievement now achievementId s
  end.

(** The action is an [updateTask] whose patch has a [status] key holding
    a status that is not final. *)
Definition patchesStatusBack (a : Action) : bool :=
  match a with
  | UpdateTask _ taskUpdate =>
      match TaskUpdate.status taskUpdate with
      | Some st => negb (isTerminal st)
      | None => false
      end
  | _ => false
  end.

(** Every task of [l] that has a final status is still at its place in
    [l'], with a final status. *)
Definition terminalKept (l l' : list Task.t) : Prop :=
  forall i t,
    nth_error l i = Some t -> isTerminal (Task.status t) = true ->
    exists t', nth_error l' i = Some t'
               /\ isTerminal (Task.status t') = true.

(** The tasks of [l'] are tasks of [l], untouched. *)
Definition onlyRemoved (l l' : list Task.t) : Prop :=
  forall t, In t l' -> In t l.

(** No task of the store has the identifier [id]. *)
Definition unknownTask (id : string) (s : Store) : Prop :=
  forall t, In t (tasks s) -> String.eqb (Task.id t) id = false.

(** Every unlocked achievement of [l] is still at its place in [l'], with
    the same identifier, unlocked. *)
Definition unlockedKept (l l' : list Achievement.t) : Prop :=
  forall i a,
    nth_error l i = Some a -> Achievement.isUnlocked a = true ->
    exists a', nth_error l' i = Some a'
               /\ Achievement.id a' = Achievement.id a
               /\ Achievement.isUnlocked a' = true.

(** A sequence of actions, the first of the list performed first. *)
Fixpoint performAll (l : list Action) (s : Store) : Store :=
  match l with
  | [] => s
  | a :: rest => performAll rest (perform a s)
  end.

End App.

(** * Concrete stores used as test inputs *)

Module Scenarios.

Import TaskStore App.

Local Open Scope Z_scope.

Definition origin : Position := mkPosition 0%Q 0%Q 0%Q.

Definition reportData : TaskData.t :=
  TaskData.mk "Write report" "Quarterly numbers" None None None 3.

(** The initial store after one [addTask] at time 0. *)
Definition freshStore : Store :=
  addTask "task-1" 0 origin 0 reportData initialStore.

(** [n] clicks on Procrastinate for task-1, at times 1, 2, ..., n. *)
Definition procrastinated (n : nat) : Store :=
  performAll
    (map (fun k => HandleProcrastinate (Z.of_nat k) "task-1") (seq 1 n))
    freshStore.

(** task-1 completed at time 10, and completed again at time 20. *)
Definition completedOnce : Store := completeTask 10 10 "task-1" freshStore.
Definition completedTwice : Store :=
  completeTask 20 20 "task-1" completedOnce.

(** A second task added at time 30; the first runs away at time 40, the
    second at time 50. *)
Definition twoTasks : Store :=
  addTask "task-2" 30 origin 30 reportData freshStore.
Definition firstRanAway : Store := makeTaskRunAway 40 "task-1" twoTasks.
Definition bothRanAway : Store := makeTaskRunAway 50 "task-2" firstRanAway.

(** A session on task-1 opened at time 100. *)
Definition inSession : Store :=
  startFocusSession "session-1" 100 "task-1" freshStore.

(** The patch [{ status: 'pending' }]. *)
Definition backToPending : TaskUpdate.t :=
  TaskUpdate.mk None None None (Some pending) None None None None None None
    None None.

(** [unlockedAt] of the achievement called [name]. *)
Definition unlockedAtOf (name : string) (s : Store) : option Date :=
  match findAchievement name (achievements s) with
  | Some a => Achievement.unlockedAt a
  | None => None
  end.

(** [isUnlocked] of the achievement called [name]. *)
Definition isUnlockedOf (name : string) (s : Store) : bool :=
  match findAchievement name (achievements s) with
  | Some a => Achievement.isUnlocked a
  | None => false
  end.

(** Status and procrastination level of every task, in order. *)
Definition taskSummary (s : Store) : list (TaskStatus * Z) :=
  map (fun t => (Task.status t, Task.procrastinationLevel t)) (tasks s).

End Scenarios.

(** * The timer's controls as one transition system *)

Module TimerControls.

Import FocusTimer.

(** The [onClick] of the main button: pause while running or distorted,
    resume while paused, reset once completed, start otherwise. *)
Definition mainButton (now : Z) (t : Timer) : Timer :=
  match timerState t with
  | RUNNING | DISTORTED => pauseTimer t
  | PAUSED => resumeTimer now t
  | COMPLETED => resetTimer t
  | IDLE => startTimer now t
  end.

(** The effect that runs when [taskId] changes: back to 25 minutes, idle,
    no distortion; the [lastTickTime] ref is not touched. *)
Definition taskChanged (t : Timer) : Timer :=
  mkTimer (25 * 60) (25 * 60) IDLE 0 (lastTickTime t).

(** What can happen to the component: the interval firing, a click on one
    of its buttons, or a change of the selected task. *)
Inductive TimerEvent : Type :=
  | IntervalFired (now : Z)
  | MainClicked (now : Z)
  | ResetClicked
  | DistortClicked
  | MoreMadness
  | LessDistortion
  | PresetClicked (duration : Q)
  | TaskChanged.

Definition handle (e : TimerEvent) (t : Timer) : Timer :=
  match e with
  | IntervalFired now => fst (tick now t)
  | MainClicked now => mainButton now t
  | ResetClicked => resetTimer t
  | DistortClicked => toggleTimeDistortion t
  | MoreMadness => increaseDistortion t
  | LessDistortion => decreaseDistortion t
  | PresetClicked duration => setTimerDuration duration t
  | TaskChanged => taskChanged t
  end.

(** A history of events, the first of the list handled first. *)
Fixpoint handleAll (l : list TimerEvent) (t : Timer) : Timer :=
  match l with
  | [] => t
  | e :: rest => handleAll rest (handle e t)
  end.

(** A preset is a duration that is not negative (the buttons offer 5, 25
    and 50 minutes). *)
Definition validEvent (e : TimerEvent) : Prop :=
  match e with
  | PresetClicked duration => 0 <= duration
  | _ => True
  end.

(** The timer counts down or is distorted. *)
Definition ticking (t : Timer) : Prop :=
  timerState t = RUNNING \/ timerState t = DISTORTED.

(** What the controls keep true of the timer. *)
Definition wellFormed (t : Timer) : Prop :=
  0 <= distortionLevel t <= 100
  /\ 0 <= timeRemaining t
  /\ 0 <= initialTime t
  /\ (ticking t -> lastTickTime t <> None).

End TimerControls.

(** * What the components derive from the store *)

Module Views.

Import TaskStore.

(** The three groups of the task list ([TaskManager], "Group tasks by
    status"). *)
Definition pendingTasks (l : list Task.t) : list Task.t :=
  filter (fun t => TaskStatus_eqb (Task.status t) pending
                   || TaskStatus_eqb (Task.status t) in_progress) l.

Definition completedTasks (l : list Task.t) : list Task.t :=
  filter (fun t => TaskStatus_eqb (Task.status t) completed) l.

Definition runawayTasks (l : list Task.t) : list Task.t :=
  filter (fun t => TaskStatus_eqb (Task.status t) running_away) l.

(** [focusSessions.reduce((total, session) => total + session.duration, 0)]
    of the statistics panel. *)
Definition totalFocusTime (l : list FocusSession.t) : Q :=
  fold_left (fun total session => total + FocusSession.duration session) l 0.

(** [array.length] as a number. *)
Definition lengthQ {A : Type} (l : list A) : Q :=
  inject_Z (Z.of_nat (List.length l)).

(** The landscape's [completionRatio]. *)
Definition completionRatio (l : list Task.t) : Q :=
  if Qltb 0 (lengthQ l)
  then lengthQ (completedTasks l) / lengthQ l
  else 0.

(** The landscape's [focusMountainHeight]. *)
Definition focusMountainHeight (l : list Task.t) : Q :=
  1 + completionRatio l * 3.

(** The landscape's [productivityScore]:
    [Math.min(1, stats.totalTasksCompleted / Math.max(10, tasks.length * 0.5))]. *)
Definition productivityScore (l : list Task.t) (p : ProductivityStats.t)
  : Q :=
  Math_min 1
    (inject_Z (ProductivityStats.totalTasksCompleted p)
     / Math_max 10 (lengthQ l * (1 # 2))).

(** [calculateUrgency(task)] of the 3D task object, the clock reading
    [now]. *)
Definition calculateUrgency (now : Date) (task : Task.t) : Q :=
  match Task.deadline task with
  | None => 0
  | Some deadline =>
      let timeLeft := inject_Z (deadline - now) in
      if Qltb timeLeft 0 then 1
      else if Qltb timeLeft (24 * 60 * 60 * 1000)
      then (7 # 10)
           + (3 # 10) * (1 - timeLeft / (24 * 60 * 60 * 1000))
      else if Qltb timeLeft (7 * 24 * 60 * 60 * 1000)
      then (3 # 10)
           + (4 # 10) * (1 - timeLeft / (7 * 24 * 60 * 60 * 1000))
      else Math_max (1 # 10)
             ((3 # 10) * inject_Z (Task.importance task) / 5)
  end.

(** The identifiers of a list of achievements, in order. *)
Definition achievementIds (l : list Achievement.t) : list string :=
  map Achievement.id l.

End Views.

(** * The buttons of the task list *)

Module TaskList.

Import TaskStore Views.




End TaskList.

(** * Facts about the number helpers *)

Lemma Qltb_true x y : Qltb x y = true <-> x < y.
Proof.
  unfold Qltb. rewrite negb_true_iff, <- not_true_iff_false, Qle_bool_iff.
  split; [apply Qnot_le_lt | apply Qlt_not_le].
Qed.

Lemma Qltb_false x y : Qltb x y = false <-> y <= x.
Proof.
  unfold Qltb. rewrite negb_false_iff. apply Qle_bool_iff.
Qed.

Lemma Qle_bool_false x y : Qle_bool x y = false <-> y < x.
Proof.
  rewrite <- not_true_iff_false, Qle_bool_iff.
  split; [apply Qnot_le_lt | apply Qlt_not_le].
Qed.

(** Destructs the boolean comparisons of the goal, leaving the matching
    order facts in the context. *)
Ltac qcase :=
  repeat match goal with
    | |- context [Qltb ?a ?b] =>
        let E := fresh "E" in
        destruct (Qltb a b) eqn:E;
        [apply Qltb_true in E | apply Qltb_false in E]
    | |- context [Qle_bool ?a ?b] =>
        let E := fresh "E" in
        destruct (Qle_bool a b) eqn:E;
        [apply Qle_bool_iff in E | apply Qle_bool_false in E]
    end.

(** Linear arithmetic with divisions by constants: the inverses of the
    constants are computed first. *)
Ltac qlra :=
  unfold Qdiv in *;
  repeat match goal with
    | |- context [/ ?c] =>
        let v := eval cbv in (/ c) in change (/ c) with v
    | H : context [/ ?c] |- _ =>
        let v := eval cbv in (/ c) in change (/ c) with v in H
    end;
  lra.

Lemma Math_max_lower a b : a <= Math_max a b.
Proof. unfold Math_max. qcase; lra. Qed.

Lemma Math_max_right a b : a <= b -> Math_max a b = b.
Proof.
  intros H. unfold Math_max.
  destruct (Qle_bool a b) eqn:E; [reflexivity|].
  apply Qle_bool_false in E. lra.
Qed.

(** * The multiplier curve and the countdown *)

Module TimerFacts.

Import FocusTimer.

(** While distorted, a tick that has a previous reading of the clock
    subtracts the elapsed seconds scaled by the curve, floored at zero. *)
Lemma tick_distorted t now last :
  timerState t = DISTORTED -> lastTickTime t = Some last ->
  timeRemaining (fst (tick now t)) =
    Math_max 0 (timeRemaining t
                - elapsedSeconds now last
                  * distortedMultiplier (distortionLevel t)).
Proof.
  intros Hs Hl. unfold tick. rewrite Hs, Hl. reflexivity.
Qed.

Lemma multiplier_below_30 d :
  d < 30 -> distortedMultiplier d == (1 # 2) + d / 60.
Proof. intros H. unfold distortedMultiplier. qcase; qlra. Qed.

Lemma multiplier_30_60 d :
  30 <= d < 60 -> distortedMultiplier d == 1 + (d - 30) / 30.
Proof. intros H. unfold distortedMultiplier. qcase; qlra. Qed.

Lemma multiplier_60_80 d :
  60 <= d < 80 -> distortedMultiplier d == 2 + (d - 60) / 20.
Proof. intros H. unfold distortedMultiplier. qcase; qlra. Qed.

Lemma multiplier_80_95 d :
  80 <= d < 95 -> distortedMultiplier d == 3 + (d - 80) / (15 # 2).
Proof. intros H. unfold distortedMultiplier. qcase; qlra. Qed.

Lemma multiplier_from_95 d :
  95 <= d -> distortedMultiplier d == -1.
Proof. intros H. unfold distortedMultiplier. qcase; qlra. Qed.

(** Around a point [b] whose neighbours within distance 7 all lie on the
    forward pieces, the curve moves by less than the distance. *)
Ltac continuity_by_slope :=
  intros eps Heps;
  destruct (Qlt_le_dec eps 1) as [Hsmall | Hbig];
  [ exists (7 * eps) | exists 7 ];
  (split; [lra|]);
  intros d Hd; apply Qabs_Qlt_condition in Hd;
  apply Qabs_Qlt_condition;
  unfold distortedMultiplier; qcase; qlra.

Lemma continuous_at_30 : continuous_at distortedMultiplier 30.
Proof. continuity_by_slope. Qed.

Lemma continuous_at_60 : continuous_at distortedMultiplier 60.
Proof. continuity_by_slope. Qed.

Lemma continuous_at_80 : continuous_at distortedMultiplier 80.
Proof. continuity_by_slope. Qed.

(** Just below 95 the curve approaches 5, the top of the fastest piece. *)
Lemma left_limit_at_95 : left_limit distortedMultiplier 95 5.
Proof.
  intros eps Heps.
  destruct (Qlt_le_dec eps 1) as [Hsmall | Hbig];
    [ exists (7 * eps) | exists 7 ];
    (split; [lra|]);
    intros d Hlo Hhi; apply Qabs_Qlt_condition;
    unfold distortedMultiplier; qcase; qlra.
Qed.

Example reversedTimer_state :
  timerState reversedTimer = DISTORTED
  /\ distortionLevel reversedTimer == 100
  /\ timeRemaining reversedTimer == 1499
  /\ initialTime reversedTimer == 1500.
Proof. repeat split. Qed.

(** C1 (as amended): while distorted, with the level in [0,100], a tick
    scales the elapsed time by the curve m; m is the piecewise function of
    the table, takes the values 1/2, 1, 2, 3, -1, -1 at 0, 30, 60, 80, 95
    and 100, and is continuous at the boundaries 30, 60 and 80; at 95 it
    drops to -1 from values that approach 5. *)
Theorem C1_multiplier_curve t now last :
  timerState t = DISTORTED -> lastTickTime t = Some last ->
  0 <= distortionLevel t <= 100 ->
  let d := distortionLevel t in
  let m := distortedMultiplier in
  timeRemaining (fst (tick now t)) =
    Math_max 0 (timeRemaining t - elapsedSeconds now last * m d)
  /\ (d < 30 -> m d == (1 # 2) + d / 60)
  /\ (30 <= d < 60 -> m d == 1 + (d - 30) / 30)
  /\ (60 <= d < 80 -> m d == 2 + (d - 60) / 20)
  /\ (80 <= d < 95 -> m d == 3 + (d - 80) / (15 # 2))
  /\ (95 <= d -> m d == -1)
  /\ m 0 == 1 # 2 /\ m 30 == 1 /\ m 60 == 2 /\ m 80 == 3
  /\ m 95 == -1 /\ m 100 == -1
  /\ continuous_at m 30 /\ continuous_at m 60 /\ continuous_at m 80
  /\ left_limit m 95 5.
Proof.
  intros Hs Hl Hd d m.
  split; [exact (tick_distorted t now last Hs Hl)|].
  split; [apply multiplier_below_30|].
  split; [apply multiplier_30_60|].
  split; [apply multiplier_60_80|].
  split; [apply multiplier_80_95|].
  split; [apply multiplier_from_95|].
  repeat (split; [reflexivity|]).
  split; [apply continuous_at_30|].
  split; [apply continuous_at_60|].
  split; [apply continuous_at_80|].
  apply left_limit_at_95.
Qed.

Lemma C1_multiplier_curve_witness :
  let t := mkTimer 1500 1500 DISTORTED 45 (Some 0%Z) in
  timerState t = DISTORTED /\ 0 <= distortionLevel t <= 100
  /\ timeRemaining (fst (tick 2000 t)) =
       Math_max 0 (timeRemaining t
                   - elapsedSeconds 2000 0 * distortedMultiplier 45)
  /\ distortedMultiplier 45 == 1 + (45 - 30) / 30.
Proof.
  intros t.
  assert (Hd : 0 <= distortionLevel t <= 100)
    by (split; unfold Qle; simpl; lia).
  split; [reflexivity|]. split; [exact Hd|].
  destruct (C1_multiplier_curve t 2000 0 eq_refl eq_refl Hd)
    as (Htick & _ & H3060 & _).
  split; [exact Htick|].
  apply H3060. split; unfold Qle, Qlt; simpl; lia.
Defined.

(** C1 (as stated) fails at the boundary 95: the curve is not continuous
    there, since it is at least 3 just below 95 and -1 at 95. *)
Lemma C1_not_continuous_at_95 : ~ continuous_at distortedMultiplier 95.
Proof.
  intros Hc.
  destruct (Hc 1 ltac:(lra)) as (delta & Hpos & Hnear).
  set (d := if Qlt_le_dec delta 2 then 95 - delta / 2 else 94).
  assert (Hd : 80 <= d < 95 /\ Qabs (d - 95) < delta).
  { unfold d. destruct (Qlt_le_dec delta 2);
      (split; [| apply Qabs_Qlt_condition]); qlra. }
  destruct Hd as (Hrange & Hclose).
  specialize (Hnear d Hclose). apply Qabs_Qlt_condition in Hnear.
  pose proof (multiplier_80_95 d Hrange) as Hm.
  pose proof (multiplier_from_95 95 ltac:(lra)) as Hm95.
  qlra.
Qed.

(** C2 (as amended): while distorted at level 95 or more, a tick adds the
    real elapsed seconds to the remaining time and the timer stays
    distorted; the only bound applied is the floor at 0. *)
Theorem C2_reverse_tick_adds_elapsed t now last :
  timerState t = DISTORTED -> lastTickTime t = Some last ->
  95 <= distortionLevel t -> (last <= now)%Z -> 0 <= timeRemaining t ->
  timeRemaining (fst (tick now t))
    == timeRemaining t + elapsedSeconds now last
  /\ timerState (fst (tick now t)) = DISTORTED
  /\ snd (tick now t) = false.
Proof.
  intros Hs Hl Hd Hnow Hrem.
  assert (He : 0 <= elapsedSeconds now last).
  { unfold elapsedSeconds.
    assert (0 <= inject_Z (now - last))
      by (change 0 with (inject_Z 0); rewrite <- Zle_Qle; lia).
    qlra. }
  pose proof (multiplier_from_95 _ Hd) as Hm.
  assert (Hnew : timeRemaining t
                 - elapsedSeconds now last
                   * distortedMultiplier (distortionLevel t)
                 == timeRemaining t + elapsedSeconds now last)
    by (rewrite Hm; ring).
  unfold tick. rewrite Hs, Hl. cbn [fst snd timeRemaining timerState
                                     timeMultiplier].
  rewrite Math_max_right by (rewrite Hnew; lra).
  split; [exact Hnew|].
  assert (Hfin : Qle_bool
                   (timeRemaining t
                    - elapsedSeconds now last
                      * distortedMultiplier (distortionLevel t)) 0
                 && Qltb 0 (timeRemaining t) = false).
  { apply andb_false_iff.
    destruct (Qltb 0 (timeRemaining t)) eqn:E; [left | now right].
    apply Qltb_true in E. apply Qle_bool_false. rewrite Hnew. lra. }
  rewrite Hfin. split; reflexivity.
Qed.

Lemma C2_reverse_tick_adds_elapsed_witness :
  let t := mkTimer 1490 1500 DISTORTED 96 (Some 0%Z) in
  95 <= distortionLevel t /\ 0 <= timeRemaining t
  /\ timeRemaining (fst (tick 10000 t))
       == timeRemaining t + elapsedSeconds 10000 0
  /\ timerState (fst (tick 10000 t)) = DISTORTED.
Proof.
  intros t.
  assert (Hd : 95 <= distortionLevel t) by (unfold Qle; simpl; lia).
  assert (Hr : 0 <= timeRemaining t) by (unfold Qle; simpl; lia).
  split; [exact Hd|]. split; [exact Hr|].
  destruct (C2_reverse_tick_adds_elapsed t 10000 0 eq_refl eq_refl Hd
              ltac:(lia) Hr) as (Hrem & Hst & _).
  split; [exact Hrem | exact Hst].
Defined.

(** C2 (as stated) fails: nothing bounds the remaining time by the initial
    duration.  Ten seconds of reverse time on a 25 minute timer that has
    lost one second leave 1509 seconds, above the 1500 configured. *)
Lemma C2_exceeds_initial_duration :
  timeRemaining (fst (tick 11000 reversedTimer)) == 1509
  /\ ~ timeRemaining (fst (tick 11000 reversedTimer))
       <= initialTime reversedTimer.
Proof.
  split; [reflexivity|].
  unfold Qle. vm_compute. intros H. apply H. reflexivity.
Qed.

End TimerFacts.

(** * The store: what each action changes *)

Module StoreFacts.

Import TaskStore App Scenarios.

(** ** Unlocking never touches tasks or statistics *)

Lemma tasks_updateAchievement now name s :
  tasks (updateAchievement now name s) = tasks s.
Proof. reflexivity. Qed.

Lemma tasks_unlockIfLocked now name found s :
  tasks (unlockIfLocked now name found s) = tasks s.
Proof.
  unfold unlockIfLocked.
  destruct found as [a|]; [destruct (Achievement.isUnlocked a)|];
    reflexivity.
Qed.

Lemma stats_unlockIfLocked now name found s :
  productivityStats (unlockIfLocked now name found s) = productivityStats s.
Proof.
  unfold unlockIfLocked.
  destruct found as [a|]; [destruct (Achievement.isUnlocked a)|];
    reflexivity.
Qed.

(** ** Mapping over the tasks *)

Lemma map_unmatched {A : Type} (p : A -> bool) (f : A -> A) (l : list A) :
  (forall a, In a l -> p a = false) ->
  map (fun a => if p a then f a else a) l = l.
Proof.
  induction l as [|a l IH]; intros H; [reflexivity|].
  cbn [map]. rewrite (H a (or_introl eq_refl)).
  f_equal. apply IH. intros b Hb. apply H. now right.
Qed.

Lemma filter_unmatched {A : Type} (p : A -> bool) (l : list A) :
  (forall a, In a l -> p a = false) ->
  filter (fun a => negb (p a)) l = l.
Proof.
  induction l as [|a l IH]; intros H; [reflexivity|].
  cbn [filter]. rewrite (H a (or_introl eq_refl)). cbn [negb].
  f_equal. apply IH. intros b Hb. apply H. now right.
Qed.

Lemma find_unmatched {A : Type} (p : A -> bool) (l : list A) :
  (forall a, In a l -> p a = false) -> find p l = None.
Proof.
  induction l as [|a l IH]; intros H; [reflexivity|].
  cbn [find]. rewrite (H a (or_introl eq_refl)).
  apply IH. intros b Hb. apply H. now right.
Qed.

Lemma setTasks_same s : setTasks (tasks s) s = s.
Proof. destruct s; reflexivity. Qed.

(** ** Unknown identifiers *)

Lemma updateTask_unknown id taskUpdate s :
  unknownTask id s -> updateTask id taskUpdate s = s.
Proof.
  intros H. unfold updateTask.
  rewrite (map_unmatched (fun t => String.eqb (Task.id t) id)
             (fun t => applyUpdate t taskUpdate) (tasks s) H).
  apply setTasks_same.
Qed.

Lemma deleteTask_unknown id s :
  unknownTask id s -> deleteTask id s = s.
Proof.
  intros H. unfold deleteTask.
  rewrite (filter_unmatched (fun t => String.eqb (Task.id t) id)
             (tasks s) H).
  apply setTasks_same.
Qed.

Lemma handleProcrastinate_unknown now id s :
  unknownTask id s -> TaskManager.handleProcrastinate now id s = s.
Proof.
  intros H. unfold TaskManager.handleProcrastinate.
  now rewrite (find_unmatched (fun t => String.eqb (Task.id t) id)
                 (tasks s) H).
Qed.

(** [completeTask] adds one to the counter on every call, whatever the
    identifier and whatever the task's status. *)
Lemma completeTask_counts_every_call completedAt unlockNow id s :
  ProductivityStats.totalTasksCompleted
    (productivityStats (completeTask completedAt unlockNow id s))
  = (ProductivityStats.totalTasksCompleted (productivityStats s) + 1)%Z.
Proof. reflexivity. Qed.

Lemma completeTask_unknown completedAt unlockNow id s :
  unknownTask id s ->
  tasks (completeTask completedAt unlockNow id s) = tasks s.
Proof.
  intros H. unfold completeTask. cbn [tasks setProductivityStats setTasks].
  apply (map_unmatched (fun t => String.eqb (Task.id t) id)
           (fun t => markCompleted t completedAt) (tasks s) H).
Qed.

(** ** Final statuses *)

Lemma terminalKept_refl l : terminalKept l l.
Proof. intros i t Hi Ht. now exists t. Qed.

Lemma terminalKept_map (f : Task.t -> Task.t) l :
  (forall t, isTerminal (Task.status t) = true ->
             isTerminal (Task.status (f t)) = true) ->
  terminalKept l (map f l).
Proof.
  intros Hf i t Hi Ht. exists (f t).
  split; [now apply map_nth_error | now apply Hf].
Qed.

Lemma terminalKept_app l extra : terminalKept l (l ++ extra).
Proof.
  intros i t Hi Ht. exists t. split; [|exact Ht].
  rewrite nth_error_app1; [exact Hi|].
  apply nth_error_Some. rewrite Hi. discriminate.
Qed.

Lemma terminalKept_updateTask id taskUpdate s :
  patchesStatusBack (UpdateTask id taskUpdate) = false ->
  terminalKept (tasks s) (tasks (updateTask id taskUpdate s)).
Proof.
  intros Hp. unfold updateTask. cbn [tasks setTasks].
  apply terminalKept_map. intros t Ht.
  destruct (String.eqb (Task.id t) id); [|exact Ht].
  cbn [patchesStatusBack] in Hp. unfold applyUpdate. cbn [Task.status].
  destruct (TaskUpdate.status taskUpdate) as [st|]; cbn [patched].
  - now apply negb_false_iff in Hp.
  - exact Ht.
Qed.

Lemma terminalKept_makeTaskRunAway now id s :
  terminalKept (tasks s) (tasks (makeTaskRunAway now id s)).
Proof.
  unfold makeTaskRunAway. rewrite tasks_updateAchievement.
  cbn [tasks setTasks]. apply terminalKept_map. intros t Ht.
  destruct (String.eqb (Task.id t) id); [reflexivity | exact Ht].
Qed.

Lemma terminalKept_completeTask completedAt unlockNow id s :
  terminalKept (tasks s) (tasks (completeTask completedAt unlockNow id s)).
Proof.
  unfold completeTask. cbn [tasks setProductivityStats setTasks].
  apply terminalKept_map. intros t Ht.
  destruct (String.eqb (Task.id t) id); [reflexivity | exact Ht].
Qed.

Lemma terminalKept_endFocusSession now unlockNow s :
  terminalKept (tasks s) (tasks (endFocusSession now unlockNow s)).
Proof.
  unfold endFocusSession.
  destruct (currentSession s) as [session|]; [|apply terminalKept_refl].
  match goal with
  | |- context [if ?c then _ else _] => destruct c
  end; rewrite ?tasks_updateAchievement; cbn [tasks];
    (destruct (find _ (tasks s)) as [task|];
     [now apply terminalKept_updateTask | apply terminalKept_refl]).
Qed.

Lemma terminalKept_handleProcrastinate now taskId s :
  terminalKept (tasks s)
    (tasks (TaskManager.handleProcrastinate now taskId s)).
Proof.
  unfold TaskManager.handleProcrastinate.
  destruct (find _ (tasks s)) as [task|]; [|apply terminalKept_refl].
  match goal with
  | |- context [if ?c then _ else _] => destruct c
  end; [apply terminalKept_makeTaskRunAway
       | now apply terminalKept_updateTask].
Qed.

(** C6 (as amended): a task whose status is completed or running-away
    keeps a final status under every action of the store, unless the action
    is an [updateTask] whose patch itself carries a status that is not
    final; [deleteTask] only removes tasks and leaves the others as they
    are. *)
Theorem C6_terminal_status_kept a s :
  patchesStatusBack a = false ->
  match a with
  | DeleteTask _ => onlyRemoved (tasks s) (tasks (perform a s))
  | _ => terminalKept (tasks s) (tasks (perform a s))
  end.
Proof.
  intros Hp. destruct a; cbn [perform].
  - unfold addTask. rewrite tasks_unlockIfLocked. cbn [tasks setTasks].
    apply terminalKept_app.
  - now apply terminalKept_updateTask.
  - intros t Ht. unfold deleteTask in Ht. cbn [tasks setTasks] in Ht.
    now apply filter_In in Ht.
  - apply terminalKept_completeTask.
  - apply terminalKept_makeTaskRunAway.
  - apply terminalKept_handleProcrastinate.
  - apply terminalKept_refl.
  - apply terminalKept_endFocusSession.
  - unfold setDistortionLevel.
    destruct (currentSession s); apply terminalKept_refl.
  - apply terminalKept_refl.
  - apply terminalKept_refl.
Qed.

Lemma C6_terminal_status_kept_witness :
  patchesStatusBack (MakeTaskRunAway 40 "task-1") = false
  /\ terminalKept (tasks completedOnce)
       (tasks (perform (MakeTaskRunAway 40 "task-1") completedOnce)).
Proof.
  split; [reflexivity|].
  exact (C6_terminal_status_kept (MakeTaskRunAway 40 "task-1")
           completedOnce eq_refl).
Defined.

(** C6 (as stated) fails for [updateTask]: a patch with a [status] key puts
    a completed task back to pending. *)
Lemma C6_updateTask_reopens_completed :
  map Task.status (tasks completedOnce) = [completed]
  /\ map Task.status (tasks (updateTask "task-1" backToPending completedOnce))
     = [pending].
Proof. split; reflexivity. Qed.

(** ** Streaks *)

(** No action of the store writes a streak field. *)
Lemma streaks_never_change a s :
  streaks (productivityStats (perform a s)) = streaks (productivityStats s).
Proof.
  destruct a; cbn [perform]; try reflexivity.
  - unfold addTask. now rewrite stats_unlockIfLocked.
  - unfold TaskManager.handleProcrastinate.
    destruct (find _ (tasks s)) as [task|]; [|reflexivity].
    match goal with
    | |- context [if ?c then _ else _] => destruct c
    end; reflexivity.
  - unfold endFocusSession.
    destruct (currentSession s) as [session|]; [|reflexivity].
    match goal with
    | |- context [if ?c then _ else _] => destruct c
    end; destruct (find _ (tasks s)) as [task|]; reflexivity.
  - unfold setDistortionLevel.
    destruct (currentSession s); reflexivity.
Qed.

(** C8 (as amended): closing a session leaves [currentStreak],
    [longestStreak] and [lastActiveDay] as they were; the store has no
    streak computation. *)
Theorem C8_closing_a_session_keeps_streaks now unlockNow s :
  let s' := endFocusSession now unlockNow s in
  ProductivityStats.currentStreak (productivityStats s')
    = ProductivityStats.currentStreak (productivityStats s)
  /\ ProductivityStats.longestStreak (productivityStats s')
     = ProductivityStats.longestStreak (productivityStats s)
  /\ ProductivityStats.lastActiveDay (productivityStats s')
     = ProductivityStats.lastActiveDay (productivityStats s).
Proof.
  intros s'.
  pose proof (streaks_never_change (EndFocusSession now unlockNow) s) as H.
  cbn [perform] in H. fold s' in H. unfold streaks in H.
  injection H as H1 H2 H3. now repeat split.
Qed.

(** C8 (as stated) fails: the first session ever closed should bring
    [currentStreak] to 1 and [longestStreak] to 1; both stay 0. *)
Lemma C8_first_closed_session_streak_stays_0 :
  let s' := endFocusSession 5000 5000 inSession in
  List.length (focusSessions s') = 1%nat
  /\ spec_currentStreak 5000 (productivityStats inSession) = 1%Z
  /\ ProductivityStats.currentStreak (productivityStats s') = 0%Z
  /\ spec_longestStreak 5000 (productivityStats inSession) = 1%Z
  /\ ProductivityStats.longestStreak (productivityStats s') = 0%Z.
Proof. repeat split. Qed.

(** ** Focus sessions *)

(** C7 (as amended): [startFocusSession] has no failure case and returns
    nothing.  Whether or not a session is active, the new session, with
    [startTime = now], no end time, duration 0 and distortion level 0,
    becomes the current one (the store has a single slot for it), the focus
    state becomes focus, and the rest of the store is unchanged. *)
Theorem C7_startFocusSession_opens_session newId now taskId s :
  let s' := startFocusSession newId now taskId s in
  currentSession s' = Some (FocusSession.mk newId taskId now None 0 0)
  /\ currentFocusState s' = focus
  /\ tasks s' = tasks s
  /\ focusSessions s' = focusSessions s
  /\ productivityStats s' = productivityStats s
  /\ achievements s' = achievements s.
Proof. repeat split. Qed.

(** C7 (as stated) fails: with a session active, a second
    [startFocusSession] is not a no-op, it replaces the active session. *)
Lemma C7_second_start_replaces_session :
  let s' := startFocusSession "session-2" 200 "task-2" inSession in
  option_map FocusSession.id (currentSession inSession) = Some "session-1"%string
  /\ option_map FocusSession.id (currentSession s') = Some "session-2"%string
  /\ s' <> inSession.
Proof.
  repeat split. intros H. apply (f_equal currentSession) in H.
  discriminate H.
Qed.

(** C10: with no session active, [setDistortionLevel] changes nothing. *)
Theorem C10_setDistortionLevel_without_session level s :
  currentSession s = None -> setDistortionLevel level s = s.
Proof. intros H. unfold setDistortionLevel. now rewrite H. Qed.

Lemma C10_setDistortionLevel_without_session_witness :
  currentSession freshStore = None
  /\ setDistortionLevel 96 freshStore = freshStore.
Proof.
  split; [reflexivity|].
  exact (C10_setDistortionLevel_without_session 96 freshStore eq_refl).
Defined.

(** With a session active the level is recorded and the focus state
    follows it. *)
Lemma setDistortionLevel_with_session level session s :
  currentSession s = Some session ->
  let s' := setDistortionLevel level s in
  option_map FocusSession.distortionLevel (currentSession s') = Some level
  /\ currentFocusState s' = (if Qltb 50 level then distorted else focus).
Proof.
  intros H s'. unfold s', setDistortionLevel. rewrite H. now split.
Qed.

(** ** Achievements *)

(** An action leaves the achievements alone or unlocks one of them. *)
Lemma achievements_after a s :
  achievements (perform a s) = achievements s
  \/ exists now name,
       achievements (perform a s)
       = achievements (updateAchievement now name s).
Proof.
  destruct a; cbn [perform]; try (now left).
  - unfold addTask, unlockIfLocked.
    destruct (findAchievement _ _) as [a|]; [|now left].
    destruct (Achievement.isUnlocked a); [now left|].
    right. now exists unlockNow, "first-task"%string.
  - unfold completeTask, unlockIfLocked.
    destruct (5 <=? _)%nat; [|now left].
    destruct (findAchievement _ _) as [a|]; [|now left].
    destruct (Achievement.isUnlocked a); [now left|].
    right. now exists unlockNow, "five-tasks-completed"%string.
  - right. now exists now, "procrastination-master"%string.
  - unfold TaskManager.handleProcrastinate.
    destruct (find _ (tasks s)) as [task|]; [|now left].
    match goal with
    | |- context [if ?c then _ else _] => destruct c
    end; [|now left].
    right. now exists now, "procrastination-master"%string.
  - unfold endFocusSession.
    destruct (currentSession s) as [session|]; [|now left].
    match goal with
    | |- context [if ?c then _ else _] => destruct c
    end; destruct (find _ (tasks s)) as [task|];
      try (now left); right; now exists unlockNow, "time-bender"%string.
  - unfold setDistortionLevel. destruct (currentSession s); now left.
  - right. now exists now, achievementId.
Qed.

(** [updateAchievement] stamps the matching entries with its own clock
    reading, whatever they held before. *)
Lemma updateAchievement_stamps now name s i a :
  nth_error (achievements s) i = Some a ->
  Achievement.id a = name ->
  nth_error (achievements (updateAchievement now name s)) i
  = Some (unlock now a).
Proof.
  intros Hi Hid. unfold updateAchievement. cbn [achievements setAchievements].
  rewrite (map_nth_error _ _ _ Hi), Hid, String.eqb_refl. reflexivity.
Qed.

Lemma unlockedKept_updateAchievement now name s :
  unlockedKept (achievements s)
    (achievements (updateAchievement now name s)).
Proof.
  intros i a Hi Hu. unfold updateAchievement.
  cbn [achievements setAchievements].
  rewrite (map_nth_error _ _ _ Hi).
  destruct (String.eqb (Achievement.id a) name);
    eexists; (split; [reflexivity|]); now split.
Qed.

(** The part of C5 that holds: once unlocked, an achievement stays
    unlocked under every action of the store. *)
Lemma unlocked_stays_unlocked a s :
  unlockedKept (achievements s) (achievements (perform a s)).
Proof.
  destruct (achievements_after a s) as [E | (now & name & E)]; rewrite E.
  - intros i x Hi Hu. now exists x.
  - apply unlockedKept_updateAchievement.
Qed.

(** C5 (the code against the claim): a second unlock overwrites
    [unlockedAt].  Directly: two calls of [updateAchievement] for first-task,
    at times 1 and 2, leave [unlockedAt = 2].  Through the task list: when a
    second task runs away at time 50, procrastination-master, unlocked at
    time 40 by the first, is stamped 50. *)
Theorem C5_second_unlock_overwrites_unlockedAt :
  let once := updateAchievement 1 "first-task" initialStore in
  let twice := updateAchievement 2 "first-task" once in
  unlockedAtOf "first-task" once = Some 1%Z
  /\ unlockedAtOf "first-task" twice = Some 2%Z
  /\ isUnlockedOf "procrastination-master" firstRanAway = true
  /\ unlockedAtOf "procrastination-master" firstRanAway = Some 40%Z
  /\ unlockedAtOf "procrastination-master" bothRanAway = Some 50%Z.
Proof. repeat split. Qed.

(** ** Completing tasks *)

(** C3 (the code against the claim): completing task-1 a second time
    counts again.  [totalTasksCompleted] is 2 although one task exists and
    one task is completed. *)
Theorem C3_completing_twice_counts_twice :
  ProductivityStats.totalTasksCompleted (productivityStats freshStore) = 0%Z
  /\ ProductivityStats.totalTasksCompleted (productivityStats completedOnce)
     = 1%Z
  /\ ProductivityStats.totalTasksCompleted (productivityStats completedTwice)
     = 2%Z
  /\ taskSummary completedOnce = [(completed, 0%Z)]
  /\ taskSummary completedTwice = [(completed, 0%Z)]
  /\ completedCount (tasks completedTwice) = 1%nat.
Proof. repeat split. Qed.

(** C9 (the code against the claim): [completeTask] on an identifier that
    no task has leaves the tasks alone but still adds one to
    [totalTasksCompleted], so the store changes. *)
Theorem C9_completeTask_unknown_id_counts :
  let s' := completeTask 10 10 "no-such-task" freshStore in
  unknownTask "no-such-task" freshStore
  /\ tasks s' = tasks freshStore
  /\ ProductivityStats.totalTasksCompleted (productivityStats freshStore)
     = 0%Z
  /\ ProductivityStats.totalTasksCompleted (productivityStats s') = 1%Z
  /\ completedCount (tasks s') = 0%nat
  /\ s' <> freshStore.
Proof.
  repeat split.
  - intros t [<- | []]. reflexivity.
  - intros H. apply (f_equal productivityStats) in H. discriminate H.
Qed.

(** The other three operations named by C9 do nothing on an unknown
    identifier. *)
Lemma unknown_id_noop id s :
  unknownTask id s ->
  (forall taskUpdate, updateTask id taskUpdate s = s)
  /\ deleteTask id s = s
  /\ (forall now, TaskManager.handleProcrastinate now id s = s).
Proof.
  intros H. split; [|split].
  - intros u. now apply updateTask_unknown.
  - now apply deleteTask_unknown.
  - intros now. now apply handleProcrastinate_unknown.
Qed.

End StoreFacts.

(** * More on the countdown *)

Module TimerExtra.

Import FocusTimer TimerControls.

Lemma elapsed_nonneg now last :
  (last <= now)%Z -> 0 <= elapsedSeconds now last.
Proof.
  intros H. unfold elapsedSeconds.
  assert (0 <= inject_Z (now - last))
    by (change 0 with (inject_Z 0); rewrite <- Zle_Qle; lia).
  qlra.
Qed.

Lemma Math_max_0_cases x :
  (0 <= x /\ Math_max 0 x = x) \/ (x < 0 /\ Math_max 0 x = 0).
Proof.
  unfold Math_max. destruct (Qle_bool 0 x) eqn:E.
  - left. split; [now apply Qle_bool_iff | reflexivity].
  - right. split; [now apply Qle_bool_false | reflexivity].
Qed.

Lemma finished_iff newValue prev :
  Qle_bool newValue 0 && Qltb 0 prev = true <-> newValue <= 0 /\ 0 < prev.
Proof. now rewrite andb_true_iff, Qle_bool_iff, Qltb_true. Qed.

(** The shape of a tick that has a previous clock reading. *)
Lemma tick_ticking t now last :
  ticking t -> lastTickTime t = Some last ->
  let newValue :=
    Math_max 0 (timeRemaining t
                - elapsedSeconds now last
                  * timeMultiplier (timerState t) (distortionLevel t)) in
  let finished := Qle_bool newValue 0 && Qltb 0 (timeRemaining t) in
  tick now t =
    (mkTimer newValue (initialTime t)
       (if finished then COMPLETED else timerState t)
       (distortionLevel t) (Some now), finished).
Proof.
  intros [Hs | Hs] Hl; unfold tick; rewrite Hs, Hl; reflexivity.
Qed.

Lemma forward_multiplier_range d :
  0 <= d -> d < 95 ->
  1 # 2 <= distortedMultiplier d /\ distortedMultiplier d < 5.
Proof. intros H0 H95. unfold distortedMultiplier. qcase; split; qlra. Qed.

(** X1: The forward pieces of the curve run between half speed and five times
    speed. *)
Theorem forward_multiplier_bounds d :
  0 <= d -> d < 95 ->
  1 # 2 <= distortedMultiplier d /\ distortedMultiplier d < 5.
Proof. apply forward_multiplier_range. Qed.

Lemma forward_multiplier_bounds_witness :
  0 <= 94 /\ 94 < 95
  /\ 1 # 2 <= distortedMultiplier 94 /\ distortedMultiplier 94 < 5.
Proof.
  assert (H0 : 0 <= 94) by (unfold Qle; simpl; lia).
  assert (H1 : 94 < 95) by (unfold Qlt; simpl; lia).
  split; [exact H0|]. split; [exact H1|].
  exact (forward_multiplier_bounds 94 H0 H1).
Defined.

(** X2: Below 95 a higher level never gives a slower clock. *)
Theorem multiplier_monotone d1 d2 :
  d1 <= d2 -> d2 < 95 -> distortedMultiplier d1 <= distortedMultiplier d2.
Proof. intros H12 H95. unfold distortedMultiplier. qcase; qlra. Qed.

Lemma multiplier_monotone_witness :
  29 <= 61 /\ 61 < 95 /\ distortedMultiplier 29 <= distortedMultiplier 61.
Proof.
  assert (H0 : 29 <= 61) by (unfold Qle; simpl; lia).
  assert (H1 : 61 < 95) by (unfold Qlt; simpl; lia).
  split; [exact H0|]. split; [exact H1|].
  exact (multiplier_monotone 29 61 H0 H1).
Defined.

(** The multiplier of a timer that runs forward is not negative. *)
Lemma forward_timeMultiplier_nonneg st d :
  (st = DISTORTED -> 0 <= d /\ d < 95) -> 0 <= timeMultiplier st d.
Proof.
  intros H. destruct st; cbn [timeMultiplier]; try lra.
  destruct (H eq_refl) as (H0 & H95).
  pose proof (forward_multiplier_range d H0 H95). lra.
Qed.

(** X3: Running, or distorted below level 95, a tick never adds time: the
    remaining time stays between 0 and what it was. *)
Theorem forward_tick_counts_down t now last :
  ticking t -> lastTickTime t = Some last -> (last <= now)%Z ->
  0 <= timeRemaining t ->
  (timerState t = DISTORTED ->
   0 <= distortionLevel t /\ distortionLevel t < 95) ->
  0 <= timeRemaining (fst (tick now t))
  /\ timeRemaining (fst (tick now t)) <= timeRemaining t.
Proof.
  intros Ht Hl Hnow Hrem Hfwd.
  rewrite (tick_ticking t now last Ht Hl). cbn [fst timeRemaining].
  pose proof (Qmult_le_0_compat _ _ (elapsed_nonneg now last Hnow)
                (forward_timeMultiplier_nonneg _ _ Hfwd)) as Hv.
  destruct (Math_max_0_cases
              (timeRemaining t
               - elapsedSeconds now last
                 * timeMultiplier (timerState t) (distortionLevel t)))
    as [(Hx & ->) | (Hx & ->)]; lra.
Qed.

Lemma forward_tick_counts_down_witness :
  let t := mkTimer 1500 1500 DISTORTED 70 (Some 0%Z) in
  0 <= timeRemaining (fst (tick 4000 t))
  /\ timeRemaining (fst (tick 4000 t)) <= timeRemaining t.
Proof.
  intros t.
  apply (forward_tick_counts_down t 4000 0).
  - right. reflexivity.
  - reflexivity.
  - lia.
  - unfold Qle; simpl; lia.
  - intros _. split; [unfold Qle | unfold Qlt]; simpl; lia.
Defined.

(** A tick with no time elapsed changes neither the remaining time nor the
    state, and signals nothing. *)
Theorem tick_without_elapsed_time t now :
  ticking t -> lastTickTime t = Some now -> 0 <= timeRemaining t ->
  timeRemaining (fst (tick now t)) == timeRemaining t
  /\ timerState (fst (tick now t)) = timerState t
  /\ snd (tick now t) = false.
Proof.
  intros Ht Hl Hrem.
  rewrite (tick_ticking t now now Ht Hl). cbn [fst snd timeRemaining timerState].
  assert (He : elapsedSeconds now now == 0)
    by (unfold elapsedSeconds; rewrite Z.sub_diag; reflexivity).
  set (x := timeRemaining t
            - elapsedSeconds now now
              * timeMultiplier (timerState t) (distortionLevel t)).
  assert (Hx : x == timeRemaining t) by (unfold x; rewrite He; ring).
  assert (Hmax : Math_max 0 x == timeRemaining t).
  { destruct (Math_max_0_cases x) as [(H & ->) | (H & ->)]; lra. }
  assert (Hfin : Qle_bool (Math_max 0 x) 0 && Qltb 0 (timeRemaining t)
                 = false).
  { apply not_true_iff_false. rewrite finished_iff. lra. }
  rewrite Hfin. now repeat split.
Qed.

Lemma tick_without_elapsed_time_witness :
  let t := mkTimer 900 1500 RUNNING 0 (Some 7000%Z) in
  timeRemaining (fst (tick 7000 t)) == timeRemaining t
  /\ timerState (fst (tick 7000 t)) = timerState t
  /\ snd (tick 7000 t) = false.
Proof.
  intros t. apply (tick_without_elapsed_time t 7000).
  - left. reflexivity.
  - reflexivity.
  - unfold Qle; simpl; lia.
Defined.

(** X4: While running at real speed, a tick whose elapsed time is at least the
    remaining time ends the countdown: nothing remains, the state is
    completed and the completion is signalled. *)
Theorem running_countdown_completes t now last :
  timerState t = RUNNING -> lastTickTime t = Some last ->
  0 < timeRemaining t -> timeRemaining t <= elapsedSeconds now last ->
  timeRemaining (fst (tick now t)) == 0
  /\ timerState (fst (tick now t)) = COMPLETED
  /\ snd (tick now t) = true.
Proof.
  intros Hs Hl Hpos Hlate.
  rewrite (tick_ticking t now last (or_introl Hs) Hl).
  cbn [fst snd timeRemaining timerState]. rewrite Hs. cbn [timeMultiplier].
  set (x := timeRemaining t - elapsedSeconds now last * 1).
  assert (Hx : x <= 0) by (unfold x; lra).
  assert (Hmax : Math_max 0 x == 0).
  { destruct (Math_max_0_cases x) as [(H & ->) | (H & ->)]; lra. }
  assert (Hfin : Qle_bool (Math_max 0 x) 0 && Qltb 0 (timeRemaining t)
                 = true) by (apply finished_iff; lra).
  rewrite Hfin. now repeat split.
Qed.

Lemma running_countdown_completes_witness :
  let t := mkTimer 600 600 RUNNING 0 (Some 0%Z) in
  timeRemaining (fst (tick 600000 t)) == 0
  /\ timerState (fst (tick 600000 t)) = COMPLETED
  /\ snd (tick 600000 t) = true.
Proof.
  intros t. apply (running_countdown_completes t 600000 0).
  - reflexivity.
  - reflexivity.
  - unfold Qlt; simpl; lia.
  - unfold Qle; simpl; lia.
Defined.

(** X5: A tick that signals completion leaves a completed timer with nothing
    remaining, and no later tick changes it or signals again. *)
Theorem completion_is_signalled_once t now :
  snd (tick now t) = true ->
  timerState (fst (tick now t)) = COMPLETED
  /\ timeRemaining (fst (tick now t)) == 0
  /\ forall later, tick later (fst (tick now t)) = (fst (tick now t), false).
Proof.
  intros Hfin.
  assert (Hactive : ticking t /\ exists last, lastTickTime t = Some last).
  { unfold tick, ticking in *.
    destruct (timerState t); try discriminate Hfin;
      (destruct (lastTickTime t) as [last|]; [|discriminate Hfin]);
      (split; [auto | now exists last]). }
  destruct Hactive as (Ht & last & Hl).
  rewrite (tick_ticking t now last Ht Hl) in *.
  cbn [fst snd timeRemaining timerState] in *. rewrite Hfin.
  apply finished_iff in Hfin. destruct Hfin as (Hle & Hpos).
  split; [reflexivity|]. split.
  - pose proof (Math_max_lower 0
                  (timeRemaining t
                   - elapsedSeconds now last
                     * timeMultiplier (timerState t) (distortionLevel t))).
    lra.
  - intros later. reflexivity.
Qed.

Lemma completion_is_signalled_once_witness :
  let t := mkTimer 3 1500 DISTORTED 90 (Some 0%Z) in
  snd (tick 1000 t) = true
  /\ timerState (fst (tick 1000 t)) = COMPLETED
  /\ tick 2000 (fst (tick 1000 t)) = (fst (tick 1000 t), false).
Proof.
  intros t.
  assert (H : snd (tick 1000 t) = true) by reflexivity.
  split; [exact H|].
  destruct (completion_is_signalled_once t 1000 H) as (Hs & _ & Hlater).
  split; [exact Hs | exact (Hlater 2000%Z)].
Defined.

(** X6: Paused time is not counted: ticks while paused do nothing, and the
    first tick after resuming subtracts the real time since the resume, at
    real speed, whatever the state and level were before the pause. *)
Theorem paused_time_is_not_counted t during resumed now :
  let paused := pauseTimer t in
  let t' := resumeTimer resumed (fst (tick during paused)) in
  tick during paused = (paused, false)
  /\ timerState t' = RUNNING
  /\ timeRemaining (fst (tick now t'))
     == Math_max 0 (timeRemaining t - elapsedSeconds now resumed).
Proof.
  intros paused t'. split; [reflexivity|]. split; [reflexivity|].
  unfold t', paused. cbn.
  set (e := elapsedSeconds now resumed).
  unfold Math_max.
  destruct (Qle_bool 0 (timeRemaining t - e * 1)) eqn:E1;
    destruct (Qle_bool 0 (timeRemaining t - e)) eqn:E2;
    try apply Qle_bool_iff in E1; try apply Qle_bool_false in E1;
    try apply Qle_bool_iff in E2; try apply Qle_bool_false in E2; lra.
Qed.

Lemma Math_min_100_range x : 0 <= x -> 0 <= Math_min 100 x <= 100.
Proof. intros H. unfold Math_min. qcase; lra. Qed.

Lemma Math_max_0_range x : x <= 100 -> 0 <= Math_max 0 x <= 100.
Proof. intros H. unfold Math_max. qcase; lra. Qed.

Lemma tick_keeps_wellFormed now t :
  wellFormed t -> wellFormed (fst (tick now t)).
Proof.
  intros (Hd & Hrem & Hinit & Hlast).
  destruct (lastTickTime t) as [last|] eqn:Hl.
  - assert (Hcases : ticking t \/ tick now t = (t, false)).
    { unfold ticking, tick. destruct (timerState t); auto. }
    destruct Hcases as [Ht | Hidle].
    + rewrite (tick_ticking t now last Ht Hl). cbn [fst].
      unfold wellFormed.
      cbn [distortionLevel timeRemaining initialTime lastTickTime].
      split; [exact Hd|]. split; [apply Math_max_lower|].
      split; [exact Hinit|]. intros _. discriminate.
    + rewrite Hidle. cbn [fst]. unfold wellFormed. rewrite Hl. tauto.
  - assert (Hidle : ~ ticking t) by (intros Ht; now apply Hlast).
    assert (E : tick now t = (t, false)).
    { unfold ticking, tick in *. destruct (timerState t); tauto. }
    rewrite E. cbn [fst]. unfold wellFormed. rewrite Hl. tauto.
Qed.

Lemma handle_keeps_wellFormed e t :
  validEvent e -> wellFormed t -> wellFormed (handle e t).
Proof.
  intros Hv Hwf. destruct e; cbn [handle]; [now apply tick_keeps_wellFormed|..];
    destruct Hwf as (Hd & Hrem & Hinit & Hlast);
    unfold wellFormed, ticking in *; cbn [validEvent] in Hv;
    unfold mainButton, resetTimer, toggleTimeDistortion, increaseDistortion,
      decreaseDistortion, setTimerDuration, taskChanged, pauseTimer,
      resumeTimer, startTimer;
    destruct (timerState t) eqn:Hs;
    cbn [distortionLevel timeRemaining initialTime lastTickTime timerState];
    rewrite ?Hs;
    repeat split;
    try lra; try tauto; try discriminate; try apply Hd;
    try (intros [H | H]; discriminate H);
    try (intros _ Hn; exact (Hlast (or_introl eq_refl) Hn));
    try (intros _ Hn; exact (Hlast (or_intror eq_refl) Hn));
    try (apply Math_min_100_range; lra);
    try (apply Math_max_0_range; lra).
Qed.

Lemma wellFormed_initialTimer : wellFormed initialTimer.
Proof.
  unfold wellFormed, ticking, initialTimer.
  cbn [distortionLevel timeRemaining initialTime lastTickTime timerState].
  repeat split; try lra; try (intros [H | H]; discriminate H).
Qed.

Lemma handleAll_keeps_wellFormed l :
  forall t, Forall validEvent l -> wellFormed t ->
            wellFormed (handleAll l t).
Proof.
  induction l as [|e l IH]; intros t Hv Hwf; [exact Hwf|].
  inversion Hv as [|e' l' He Hl]; subst. cbn [handleAll].
  apply IH; [exact Hl | now apply handle_keeps_wellFormed].
Qed.

(** X8: Whatever the user clicks and whenever the interval fires, starting
    from the component's initial state: the distortion level stays within
    0 and 100, the remaining time and the configured duration are never
    negative, and a running or distorted timer always has a previous clock
    reading, so that a tick never falls into its first-reading branch. *)
Theorem controls_keep_timer_wellFormed l :
  Forall validEvent l ->
  let t := handleAll l initialTimer in
  0 <= distortionLevel t <= 100
  /\ 0 <= timeRemaining t
  /\ 0 <= initialTime t
  /\ (ticking t -> exists last, lastTickTime t = Some last).
Proof.
  intros Hv t.
  destruct (handleAll_keeps_wellFormed l initialTimer Hv
              wellFormed_initialTimer) as (Hd & Hrem & Hinit & Hlast).
  fold t in Hd, Hrem, Hinit, Hlast.
  repeat split; try apply Hd; try assumption.
  intros Ht. destruct (lastTickTime t) as [last|]; [now exists last|].
  now destruct (Hlast Ht).
Qed.

Lemma controls_keep_timer_wellFormed_witness :
  let l := [PresetClicked 300; MainClicked 0; IntervalFired 1000;
            DistortClicked; MoreMadness; MoreMadness; LessDistortion;
            IntervalFired 2500; MainClicked 3000; MainClicked 9000;
            IntervalFired 400000] in
  let t := handleAll l initialTimer in
  Forall validEvent l
  /\ 0 <= distortionLevel t <= 100
  /\ 0 <= timeRemaining t
  /\ 0 <= initialTime t.
Proof.
  intros l t.
  assert (Hv : Forall validEvent l).
  { unfold l.
    repeat (apply Forall_cons;
            [cbn [validEvent]; try exact I; unfold Qle; simpl; lia|]).
    apply Forall_nil. }
  split; [exact Hv|].
  destruct (controls_keep_timer_wellFormed l Hv) as (Hd & Hrem & Hinit & _).
  split; [exact Hd|]. split; [exact Hrem | exact Hinit].
Defined.

End TimerExtra.

(** * More on the store *)

Module StoreExtra.

Import TaskStore App Scenarios Views StoreFacts.

(** ** Lists *)

Lemma find_map_preserving {A : Type} (p : A -> bool) (f : A -> A) l :
  (forall a, p (f a) = p a) ->
  find p (map f l) = option_map f (find p l).
Proof.
  intros Hp. induction l as [|a l IH]; [reflexivity|].
  cbn [map find]. rewrite Hp. now destruct (p a).
Qed.

Lemma find_app_unmatched {A : Type} (p : A -> bool) l l' :
  (forall a, In a l -> p a = false) -> find p (l ++ l') = find p l'.
Proof.
  induction l as [|a l IH]; intros H; [reflexivity|].
  cbn [app find]. rewrite (H a (or_introl eq_refl)).
  apply IH. intros b Hb. apply H. now right.
Qed.

Lemma map_on_sole {A : Type} (p : A -> bool) (f : A -> A) before x after :
  (forall a, In a before -> p a = false) -> p x = true ->
  (forall a, In a after -> p a = false) ->
  map (fun a => if p a then f a else a) (before ++ x :: after)
  = before ++ f x :: after.
Proof.
  intros Hb Hx Ha. rewrite map_app. cbn [map]. rewrite Hx.
  now rewrite (map_unmatched p f before Hb), (map_unmatched p f after Ha).
Qed.

(** ** The guarded unlock of [addTask] and [completeTask] *)

Lemma unlock_keeps_id now name a :
  String.eqb
    (Achievement.id (if String.eqb (Achievement.id a) name
                     then unlock now a else a)) name
  = String.eqb (Achievement.id a) name.
Proof. now destruct (String.eqb (Achievement.id a) name) eqn:E. Qed.

Lemma findAchievement_updateAchievement now name s :
  findAchievement name (achievements (updateAchievement now name s))
  = option_map (unlock now) (findAchievement name (achievements s)).
Proof.
  unfold findAchievement, updateAchievement.
  cbn [achievements setAchievements].
  rewrite (find_map_preserving
             (fun a => String.eqb (Achievement.id a) name)
             (fun a => if String.eqb (Achievement.id a) name
                       then unlock now a else a));
    [|intros a; apply unlock_keeps_id].
  destruct (find _ (achievements s)) as [a|] eqn:E; [|reflexivity].
  apply find_some in E. destruct E as (_ & E). cbn [option_map].
  now rewrite E.
Qed.

(** After the guarded unlock of an achievement that exists, it is unlocked;
    its date is the one it had if it was unlocked already, the new clock
    reading otherwise. *)
Lemma unlockIfLocked_spec now name s a :
  findAchievement name (achievements s) = Some a ->
  let s' := unlockIfLocked now name (Some a) s in
  isUnlockedOf name s' = true
  /\ unlockedAtOf name s'
     = (if Achievement.isUnlocked a then Achievement.unlockedAt a
        else Some now)
  /\ (Achievement.isUnlocked a = true -> s' = s).
Proof.
  intros Hf s'. unfold s', unlockIfLocked, isUnlockedOf, unlockedAtOf.
  destruct (Achievement.isUnlocked a) eqn:Eu; cbn [negb].
  - rewrite Hf. now repeat split.
  - rewrite findAchievement_updateAchievement, Hf. cbn.
    repeat split. discriminate.
Qed.

(** ** Tasks *)

(** X9: [deleteTask] removes every task that has the identifier and no other
    task; sessions (the current one included), statistics and achievements
    are not touched, even when the task was completed or is being worked
    on. *)
Theorem deleteTask_removes_every_match id s :
  let s' := deleteTask id s in
  unknownTask id s'
  /\ (forall t, In t (tasks s) -> String.eqb (Task.id t) id = false ->
                In t (tasks s'))
  /\ (forall t, In t (tasks s') -> In t (tasks s))
  /\ focusSessions s' = focusSessions s
  /\ currentSession s' = currentSession s
  /\ productivityStats s' = productivityStats s
  /\ achievements s' = achievements s.
Proof.
  intros s'. unfold s', deleteTask, unknownTask. cbn [tasks setTasks].
  repeat split.
  - intros t Ht. apply filter_In in Ht. destruct Ht as (_ & Ht).
    now apply negb_true_iff in Ht.
  - intros t Ht Hid. apply filter_In. split; [exact Ht|]. now rewrite Hid.
  - intros t Ht. now apply filter_In in Ht.
Qed.

(** X10: A task added under a fresh identifier is the one found under it: it is
    pending, with no time spent and no procrastination, carries the given
    data, and stands after the tasks that were there. *)
Theorem addTask_then_find newId now pos unlockNow taskData s :
  unknownTask newId s ->
  let s' := addTask newId now pos unlockNow taskData s in
  let newTask :=
    Task.mk newId (TaskData.title taskData) (TaskData.description taskData)
      pending now (TaskData.deadline taskData)
      (TaskData.completedAt taskData) (TaskData.lastWorkedOn taskData)
      0 (TaskData.importance taskData) 0%Z pos in
  tasks s' = tasks s ++ [newTask]
  /\ find (fun t => String.eqb (Task.id t) newId) (tasks s') = Some newTask.
Proof.
  intros Hfresh s' newTask.
  assert (E : tasks s' = tasks s ++ [newTask])
    by (unfold s', addTask; now rewrite tasks_unlockIfLocked).
  split; [exact E|]. rewrite E.
  rewrite (find_app_unmatched _ _ _ Hfresh). cbn [find Task.id].
  now rewrite String.eqb_refl.
Qed.

Lemma addTask_then_find_witness :
  unknownTask "task-2" freshStore
  /\ option_map Task.status
       (find (fun t => String.eqb (Task.id t) "task-2")
          (tasks (addTask "task-2" 30 origin 30 reportData freshStore)))
     = Some pending.
Proof.
  assert (H : unknownTask "task-2" freshStore)
    by (intros t [<- | []]; reflexivity).
  split; [exact H|].
  destruct (addTask_then_find "task-2" 30 origin 30 reportData freshStore H)
    as (_ & ->).
  reflexivity.
Defined.

(** X11: [addTask] unlocks first-task behind a guard: afterwards the achievement
    is unlocked, and if it was unlocked before, the store's achievements,
    its date included, are exactly what they were. *)
Theorem addTask_unlocks_first_task_once newId now pos unlockNow taskData s a :
  findAchievement "first-task" (achievements s) = Some a ->
  let s' := addTask newId now pos unlockNow taskData s in
  isUnlockedOf "first-task" s' = true
  /\ unlockedAtOf "first-task" s'
     = (if Achievement.isUnlocked a then Achievement.unlockedAt a
        else Some unlockNow)
  /\ (Achievement.isUnlocked a = true -> achievements s' = achievements s).
Proof.
  intros Hf s'. unfold s', addTask.
  set (s1 := setTasks _ s).
  assert (Hf1 : findAchievement "first-task" (achievements s1) = Some a)
    by exact Hf.
  rewrite Hf1.
  destruct (unlockIfLocked_spec unlockNow "first-task" s1 a Hf1)
    as (H1 & H2 & H3).
  split; [exact H1|]. split; [exact H2|].
  intros Hu. now rewrite (H3 Hu).
Qed.

Lemma addTask_unlocks_first_task_once_witness :
  unlockedAtOf "first-task" freshStore = Some 0%Z
  /\ unlockedAtOf "first-task" twoTasks = Some 0%Z
  /\ achievements twoTasks = achievements freshStore.
Proof.
  assert (Hf : findAchievement "first-task" (achievements freshStore)
               = Some (Achievement.mk "first-task" "Baby Steps"
                         "Created your first task. Congratulations on the bare minimum!"
                         (Some 0%Z) true))
    by reflexivity.
  destruct (addTask_unlocks_first_task_once "task-2" 30 origin 30
              reportData freshStore _ Hf) as (_ & Hat & Hsame).
  split; [reflexivity|]. split; [exact Hat | exact (Hsame eq_refl)].
Defined.

Lemma patched_twice {A : Type} (key : option A) (old : A) :
  patched key (patched key old) = patched key old.
Proof. now destruct key. Qed.

Lemma applyUpdate_twice task u :
  applyUpdate (applyUpdate task u) u = applyUpdate task u.
Proof.
  unfold applyUpdate.
  cbn [Task.id Task.title Task.description Task.status Task.createdAt
       Task.deadline Task.completedAt Task.lastWorkedOn Task.timeSpent
       Task.importance Task.procrastinationLevel Task.position].
  now rewrite !patched_twice.
Qed.

(** X12: Applying the same patch twice is the same as applying it once, also
    when the patch renames the task. *)
Theorem updateTask_twice id taskUpdate s :
  updateTask id taskUpdate (updateTask id taskUpdate s)
  = updateTask id taskUpdate s.
Proof.
  unfold updateTask. cbn [tasks setTasks]. unfold setTasks.
  cbn [focusSessions currentFocusState currentSession productivityStats
       achievements].
  f_equal. rewrite map_map. apply map_ext. intros t.
  destruct (String.eqb (Task.id t) id) eqn:E.
  - destruct (String.eqb (Task.id (applyUpdate t taskUpdate)) id);
      [apply applyUpdate_twice | reflexivity].
  - now rewrite E.
Qed.

(** X13: [completeTask] keeps the number of tasks, marks every task that has the
    identifier completed at the given date, whatever its status was, and
    keeps the other tasks. *)
Theorem completeTask_marks_every_match completedAt unlockNow id s :
  let s' := completeTask completedAt unlockNow id s in
  List.length (tasks s') = List.length (tasks s)
  /\ (forall t, In t (tasks s') -> String.eqb (Task.id t) id = true ->
                Task.status t = completed
                /\ Task.completedAt t = Some completedAt)
  /\ (forall t, In t (tasks s) -> String.eqb (Task.id t) id = false ->
                In t (tasks s')).
Proof.
  intros s'. unfold s', completeTask.
  cbn [tasks setProductivityStats setTasks].
  split; [apply length_map|]. split.
  - intros t Ht Hid. apply in_map_iff in Ht. destruct Ht as (t0 & Ht0 & _).
    destruct (String.eqb (Task.id t0) id) eqn:E; subst t.
    + now split.
    + congruence.
  - intros t Ht Hid. apply in_map_iff. exists t. now rewrite Hid.
Qed.

(** X14: Once a call of [completeTask] leaves five or more completed tasks, the
    achievement five-tasks-completed is unlocked, behind the same guard: a
    date it already had is kept.  With fewer than five, the achievements
    are not touched. *)
Theorem fifth_completion_unlocks completedAt unlockNow id s a :
  findAchievement "five-tasks-completed" (achievements s) = Some a ->
  let s' := completeTask completedAt unlockNow id s in
  ((5 <= completedCount (tasks s'))%nat ->
   isUnlockedOf "five-tasks-completed" s' = true
   /\ unlockedAtOf "five-tasks-completed" s'
      = (if Achievement.isUnlocked a then Achievement.unlockedAt a
         else Some unlockNow))
  /\ ((completedCount (tasks s') < 5)%nat ->
      achievements s' = achievements s).
Proof.
  intros Hf s'. unfold s', completeTask.
  cbn [tasks setProductivityStats setTasks]. rewrite Hf.
  set (updated := map _ (tasks s)).
  split; intros Hcount.
  - apply Nat.leb_le in Hcount. rewrite Hcount.
    destruct (unlockIfLocked_spec unlockNow "five-tasks-completed" s a Hf)
      as (H1 & H2 & _).
    split; [exact H1 | exact H2].
  - apply Nat.leb_gt in Hcount. now rewrite Hcount.
Qed.

Lemma fifth_completion_unlocks_witness :
  let s := performAll
             [AddTask "a" 1 origin 1 reportData;
              AddTask "b" 2 origin 2 reportData;
              AddTask "c" 3 origin 3 reportData;
              AddTask "d" 4 origin 4 reportData;
              AddTask "e" 5 origin 5 reportData;
              CompleteTask 11 11 "a"; CompleteTask 12 12 "b";
              CompleteTask 13 13 "c"; CompleteTask 14 14 "d"]
             initialStore in
  isUnlockedOf "five-tasks-completed" s = false
  /\ isUnlockedOf "five-tasks-completed" (completeTask 15 16 "e" s) = true
  /\ unlockedAtOf "five-tasks-completed" (completeTask 15 16 "e" s)
     = Some 16%Z.
Proof.
  intros s.
  assert (Hf : findAchievement "five-tasks-completed" (achievements s)
               = Some (Achievement.mk "five-tasks-completed"
                         "Productivity Padawan"
                         "Completed 5 tasks. The force of productivity is starting to flow through you."
                         None false))
    by reflexivity.
  destruct (fifth_completion_unlocks 15 16 "e" s _ Hf) as (Hfive & _).
  destruct (Hfive ltac:(vm_compute; lia)) as (H1 & H2).
  split; [reflexivity|]. split; [exact H1 | exact H2].
Defined.

Lemma totalTasksCompleted_after a s :
  ProductivityStats.totalTasksCompleted (productivityStats (perform a s))
  = match a with
    | CompleteTask _ _ _ =>
        (ProductivityStats.totalTasksCompleted (productivityStats s) + 1)%Z
    | _ => ProductivityStats.totalTasksCompleted (productivityStats s)
    end.
Proof.
  destruct a; cbn [perform]; try reflexivity.
  - unfold addTask. now rewrite stats_unlockIfLocked.
  - unfold TaskManager.handleProcrastinate.
    destruct (find _ (tasks s)) as [task|]; [|reflexivity].
    match goal with
    | |- context [if ?c then _ else _] => destruct c
    end; reflexivity.
  - unfold endFocusSession.
    destruct (currentSession s) as [session|]; [|reflexivity].
    match goal with
    | |- context [if ?c then _ else _] => destruct c
    end; destruct (find _ (tasks s)) as [task|]; reflexivity.
  - unfold setDistortionLevel.
    destruct (currentSession s); reflexivity.
Qed.

(** X15: Only [completeTask] changes [totalTasksCompleted], and each of its
    calls adds exactly one; no action ever lowers the counter. *)
Theorem totalTasksCompleted_only_grows a s :
  ProductivityStats.totalTasksCompleted (productivityStats (perform a s))
  = match a with
    | CompleteTask _ _ _ =>
        (ProductivityStats.totalTasksCompleted (productivityStats s) + 1)%Z
    | _ => ProductivityStats.totalTasksCompleted (productivityStats s)
    end
  /\ (ProductivityStats.totalTasksCompleted (productivityStats s)
      <= ProductivityStats.totalTasksCompleted
           (productivityStats (perform a s)))%Z.
Proof.
  pose proof (totalTasksCompleted_after a s) as H.
  split; [exact H|]. rewrite H. destruct a; lia.
Qed.

(** ** Focus sessions *)

Lemma currentSession_after_end now unlockNow s :
  currentSession (endFocusSession now unlockNow s) = None.
Proof.
  unfold endFocusSession.
  destruct (currentSession s) as [session|] eqn:E; [|exact E].
  match goal with
  | |- context [if ?c then _ else _] => destruct c
  end; reflexivity.
Qed.

(** X16: Ending a session when none is active changes nothing, so a session is
    closed and billed only once however often [endFocusSession] is
    called. *)
Theorem endFocusSession_twice now unlockNow later unlockLater s :
  (currentSession s = None -> endFocusSession now unlockNow s = s)
  /\ endFocusSession later unlockLater (endFocusSession now unlockNow s)
     = endFocusSession now unlockNow s.
Proof.
  split.
  - intros H. unfold endFocusSession. now rewrite H.
  - pose proof (currentSession_after_end now unlockNow s) as H.
    unfold endFocusSession at 1. now rewrite H.
Qed.

(** The store after closing an active session. *)
Lemma endFocusSession_active now unlockNow s session :
  currentSession s = Some session ->
  let duration := inject_Z (now - FocusSession.startTime session) / 1000 in
  let s' := endFocusSession now unlockNow s in
  focusSessions s'
  = focusSessions s
    ++ [FocusSession.mk (FocusSession.id session)
          (FocusSession.taskId session) (FocusSession.startTime session)
          (Some now) duration (FocusSession.distortionLevel session)]
  /\ ProductivityStats.totalTimeSpent (productivityStats s')
     = ProductivityStats.totalTimeSpent (productivityStats s) + duration
  /\ currentSession s' = None
  /\ currentFocusState s' = idle.
Proof.
  intros Hs duration s'. unfold s', endFocusSession. rewrite Hs.
  fold duration.
  match goal with
  | |- context [if ?c then _ else _] => destruct c
  end; destruct (find _ (tasks s)) as [task|]; now repeat split.
Qed.

(** X17: Closing the active session appends it to the history with its end
    time and a duration that is the real time since its start, in seconds,
    whatever the distortion was; the same duration is added to
    [totalTimeSpent]; the store goes back to idle with no session. *)
Theorem endFocusSession_bills_real_time now unlockNow s session :
  currentSession s = Some session ->
  let duration := inject_Z (now - FocusSession.startTime session) / 1000 in
  let s' := endFocusSession now unlockNow s in
  focusSessions s'
  = focusSessions s
    ++ [FocusSession.mk (FocusSession.id session)
          (FocusSession.taskId session) (FocusSession.startTime session)
          (Some now) duration (FocusSession.distortionLevel session)]
  /\ ProductivityStats.totalTimeSpent (productivityStats s')
     = ProductivityStats.totalTimeSpent (productivityStats s) + duration
  /\ currentSession s' = None
  /\ currentFocusState s' = idle.
Proof. apply endFocusSession_active. Qed.

Lemma endFocusSession_bills_real_time_witness :
  currentSession inSession
  = Some (FocusSession.mk "session-1" "task-1" 100 None 0 0)
  /\ ProductivityStats.totalTimeSpent
       (productivityStats (endFocusSession 60100 60100 inSession))
     = 0 + inject_Z (60100 - 100) / 1000.
Proof.
  assert (H : currentSession inSession
              = Some (FocusSession.mk "session-1" "task-1" 100 None 0 0))
    by reflexivity.
  split; [exact H|].
  destruct (endFocusSession_bills_real_time 60100 60100 inSession _ H)
    as (_ & Ht & _).
  exact Ht.
Defined.

Lemma totalFocusTime_snoc l session :
  totalFocusTime (l ++ [session])
  = totalFocusTime l + FocusSession.duration session.
Proof. unfold totalFocusTime. now rewrite fold_left_app. Qed.

Lemma focusSessions_after a s :
  match a with
  | EndFocusSession _ _ => True
  | _ => focusSessions (perform a s) = focusSessions s
         /\ ProductivityStats.totalTimeSpent (productivityStats (perform a s))
            = ProductivityStats.totalTimeSpent (productivityStats s)
  end.
Proof.
  destruct a; cbn [perform]; try (split; reflexivity); try exact I.
  - unfold addTask, unlockIfLocked.
    destruct (findAchievement _ _) as [a|]; [|now split].
    destruct (Achievement.isUnlocked a); now split.
  - unfold completeTask, unlockIfLocked.
    destruct (5 <=? _)%nat; [|now split].
    destruct (findAchievement _ _) as [a|]; [|now split].
    destruct (Achievement.isUnlocked a); now split.
  - unfold TaskManager.handleProcrastinate.
    destruct (find _ (tasks s)) as [task|]; [|now split].
    match goal with
    | |- context [if ?c then _ else _] => destruct c
    end; now split.
  - unfold setDistortionLevel. destruct (currentSession s); now split.
Qed.

Lemma perform_keeps_time_balance a s :
  ProductivityStats.totalTimeSpent (productivityStats s)
  = totalFocusTime (focusSessions s) ->
  ProductivityStats.totalTimeSpent (productivityStats (perform a s))
  = totalFocusTime (focusSessions (perform a s)).
Proof.
  intros Hbal. pose proof (focusSessions_after a s) as H.
  destruct a; try (destruct H as (-> & ->); exact Hbal).
  cbn [perform]. destruct (currentSession s) as [session|] eqn:Hs.
  - destruct (endFocusSession_active now unlockNow s session Hs)
      as (-> & -> & _).
    rewrite totalFocusTime_snoc. cbn [FocusSession.duration].
    now rewrite Hbal.
  - unfold endFocusSession. now rewrite Hs.
Qed.

(** X18: In every store reached from the initial one, [totalTimeSpent] is the
    sum of the durations of the closed sessions, which is the total focus
    time the statistics panel computes. *)
Theorem totalTimeSpent_is_total_focus_time l :
  let s := performAll l initialStore in
  ProductivityStats.totalTimeSpent (productivityStats s)
  = totalFocusTime (focusSessions s).
Proof.
  cbv zeta.
  assert (H : forall s,
             ProductivityStats.totalTimeSpent (productivityStats s)
             = totalFocusTime (focusSessions s) ->
             ProductivityStats.totalTimeSpent
               (productivityStats (performAll l s))
             = totalFocusTime (focusSessions (performAll l s))).
  { induction l as [|a l IH]; intros s Hs; [exact Hs|].
    cbn [performAll]. apply IH. now apply perform_keeps_time_balance. }
  now apply H.
Qed.

(** X19: A session opened, given a distortion level and closed is recorded with
    its task, its start and end, the real seconds between them and the
    level as it was set, without clamping; nothing stays open. *)
Theorem session_round_trip newId start taskId level stop unlockNow s :
  let s' :=
    endFocusSession stop unlockNow
      (setDistortionLevel level
         (startFocusSession newId start taskId s)) in
  focusSessions s'
  = focusSessions s
    ++ [FocusSession.mk newId taskId start (Some stop)
          (inject_Z (stop - start) / 1000) level]
  /\ currentSession s' = None
  /\ currentFocusState s' = idle.
Proof.
  intros s'.
  destruct (endFocusSession_active stop unlockNow
              (setDistortionLevel level
                 (startFocusSession newId start taskId s))
              (FocusSession.mk newId taskId start None 0 level) eq_refl)
    as (H1 & _ & H3 & H4).
  fold s' in H1, H3, H4. now repeat split.
Qed.

(** X20: Closing a session unlocks time-bender exactly when the session's level
    is above 75 and it lasted more than four hours of real time; the
    unlock is not guarded, so it stamps the achievement anew.  Otherwise
    the achievements are not touched. *)
Theorem time_bender_rule now unlockNow s session a :
  currentSession s = Some session ->
  findAchievement "time-bender" (achievements s) = Some a ->
  let duration := inject_Z (now - FocusSession.startTime session) / 1000 in
  let s' := endFocusSession now unlockNow s in
  (75 < FocusSession.distortionLevel session /\ 14400 < duration ->
   isUnlockedOf "time-bender" s' = true
   /\ unlockedAtOf "time-bender" s' = Some unlockNow)
  /\ (~ (75 < FocusSession.distortionLevel session /\ 14400 < duration) ->
      achievements s' = achievements s).
Proof.
  intros Hs Hf duration s'. unfold s', endFocusSession. rewrite Hs.
  fold duration.
  destruct (Qltb 75 (FocusSession.distortionLevel session)
            && Qltb 14400 duration) eqn:E.
  - apply andb_true_iff in E. destruct E as (E1 & E2).
    apply Qltb_true in E1. apply Qltb_true in E2.
    split; [|intros Hn; now destruct Hn].
    intros _. unfold isUnlockedOf, unlockedAtOf.
    rewrite findAchievement_updateAchievement.
    destruct (find _ (tasks s)) as [task|]; cbn [achievements updateTask
      setTasks]; rewrite Hf; now split.
  - split.
    + intros (H1 & H2). apply Qltb_true in H1. apply Qltb_true in H2.
      now rewrite H1, H2 in E.
    + intros _. destruct (find _ (tasks s)) as [task|]; reflexivity.
Qed.

Lemma time_bender_rule_witness :
  let s := setDistortionLevel 80 inSession in
  isUnlockedOf "time-bender" s = false
  /\ isUnlockedOf "time-bender" (endFocusSession 14500100 14500200 s) = true
  /\ unlockedAtOf "time-bender" (endFocusSession 14500100 14500200 s)
     = Some 14500200%Z.
Proof.
  intros s.
  assert (Hs : currentSession s
               = Some (FocusSession.mk "session-1" "task-1" 100 None 0 80))
    by reflexivity.
  assert (Hf : findAchievement "time-bender" (achievements s)
               = Some (Achievement.mk "time-bender" "Time Lord"
                         "Spent over 4 hours in the time distortion zone without going insane."
                         None false))
    by reflexivity.
  destruct (time_bender_rule 14500100 14500200 s _ _ Hs Hf) as (Hyes & _).
  split; [reflexivity|].
  apply Hyes. split; unfold Qlt; simpl; lia.
Defined.

(** X21: When the session's task is the only task with its identifier, closing
    the session adds the real duration to that task's [timeSpent] and
    stamps [lastWorkedOn]; its status and procrastination level, and every
    other task, are left as they are. *)
Theorem endFocusSession_credits_task now unlockNow s session
  before task after :
  currentSession s = Some session ->
  tasks s = before ++ task :: after ->
  Task.id task = FocusSession.taskId session ->
  unknownTask (FocusSession.taskId session) (setTasks (before ++ after) s) ->
  let duration := inject_Z (now - FocusSession.startTime session) / 1000 in
  exists task',
    tasks (endFocusSession now unlockNow s) = before ++ task' :: after
    /\ Task.timeSpent task' = Task.timeSpent task + duration
    /\ Task.lastWorkedOn task' = Some now
    /\ Task.id task' = Task.id task
    /\ Task.status task' = Task.status task
    /\ Task.procrastinationLevel task' = Task.procrastinationLevel task.
Proof.
  intros Hs Htasks Hid Hsole duration.
  assert (Hb : forall t, In t before ->
                 String.eqb (Task.id t) (FocusSession.taskId session) = false)
    by (intros t Ht; apply Hsole; cbn; apply in_or_app; now left).
  assert (Ha : forall t, In t after ->
                 String.eqb (Task.id t) (FocusSession.taskId session) = false)
    by (intros t Ht; apply Hsole; cbn; apply in_or_app; now right).
  assert (Hx : String.eqb (Task.id task) (FocusSession.taskId session) = true)
    by (rewrite Hid; apply String.eqb_refl).
  assert (Hfind : find (fun t => String.eqb (Task.id t)
                                   (FocusSession.taskId session)) (tasks s)
                  = Some task).
  { rewrite Htasks, (find_app_unmatched _ _ _ Hb). cbn [find].
    now rewrite Hx. }
  set (patch := TaskUpdate.mk None None None None None None None
                  (Some (Some now)) (Some (Task.timeSpent task + duration))
                  None None None).
  exists (applyUpdate task patch). split.
  - unfold endFocusSession. rewrite Hs, Hfind. fold duration. fold patch.
    match goal with
    | |- context [if ?c then _ else _] => destruct c
    end; rewrite ?tasks_updateAchievement; cbn [tasks];
      unfold updateTask; cbn [tasks setTasks]; rewrite Htasks, Hid;
      apply (map_on_sole
               (fun t => String.eqb (Task.id t) (FocusSession.taskId session))
               (fun t => applyUpdate t patch) before task after Hb Hx Ha).
  - now repeat split.
Qed.

Lemma endFocusSession_credits_task_witness :
  exists task',
    tasks (endFocusSession 60100 60100 inSession) = [task']
    /\ Task.timeSpent task' = 0 + inject_Z (60100 - 100) / 1000
    /\ Task.lastWorkedOn task' = Some 60100%Z.
Proof.
  destruct (endFocusSession_credits_task 60100 60100 inSession
              (FocusSession.mk "session-1" "task-1" 100 None 0 0)
              []
              (Task.mk "task-1" "Write report" "Quarterly numbers" pending 0
                 None None None 0 3 0 origin)
              []
              eq_refl eq_refl eq_refl
              ltac:(intros t []))
    as (task' & H1 & H2 & H3 & _).
  exists task'. split; [exact H1|]. split; [exact H2 | exact H3].
Defined.

(** A session whose task is no longer in the store still closes; the task
    list is left as it is. *)
Theorem endFocusSession_for_missing_task now unlockNow s session :
  currentSession s = Some session ->
  unknownTask (FocusSession.taskId session) s ->
  tasks (endFocusSession now unlockNow s) = tasks s
  /\ List.length (focusSessions (endFocusSession now unlockNow s))
     = S (List.length (focusSessions s)).
Proof.
  intros Hs Hu.
  destruct (endFocusSession_active now unlockNow s session Hs)
    as (Hf & _).
  split; [|rewrite Hf, length_app; cbn; lia].
  unfold endFocusSession. rewrite Hs.
  rewrite (find_unmatched _ _ Hu).
  match goal with
  | |- context [if ?c then _ else _] => destruct c
  end; reflexivity.
Qed.

Lemma endFocusSession_for_missing_task_witness :
  let s := deleteTask "task-1" inSession in
  unknownTask "task-1" s
  /\ tasks (endFocusSession 60100 60100 s) = tasks s
  /\ List.length (focusSessions (endFocusSession 60100 60100 s)) = 1%nat.
Proof.
  intros s.
  assert (Hu : unknownTask "task-1" s) by (intros t []).
  split; [exact Hu|].
  exact (endFocusSession_for_missing_task 60100 60100 s
           (FocusSession.mk "session-1" "task-1" 100 None 0 0) eq_refl Hu).
Defined.

(** ** Procrastinating *)

(** X22: The rule of the Procrastinate button for a task that is the only one
    with its identifier.  Below level 80 the level goes up by 20 and
    nothing else changes, in the task or in the achievements.  From level 80
    on the task becomes a runaway with its level unchanged, and
    procrastination-master is unlocked. *)
Theorem handleProcrastinate_rule now taskId s before task after :
  tasks s = before ++ task :: after ->
  Task.id task = taskId ->
  unknownTask taskId (setTasks (before ++ after) s) ->
  let s' := TaskManager.handleProcrastinate now taskId s in
  ((Task.procrastinationLevel task < 80)%Z ->
   exists task',
     tasks s' = before ++ task' :: after
     /\ Task.procrastinationLevel task'
        = (Task.procrastinationLevel task + 20)%Z
     /\ Task.status task' = Task.status task
     /\ achievements s' = achievements s)
  /\ ((80 <= Task.procrastinationLevel task)%Z ->
      exists task',
        tasks s' = before ++ task' :: after
        /\ Task.status task' = running_away
        /\ Task.procrastinationLevel task' = Task.procrastinationLevel task
        /\ achievements s'
           = achievements (updateAchievement now "procrastination-master" s)).
Proof.
  intros Htasks Hid Hsole s'.
  assert (Hb : forall t, In t before -> String.eqb (Task.id t) taskId = false)
    by (intros t Ht; apply Hsole; cbn; apply in_or_app; now left).
  assert (Ha : forall t, In t after -> String.eqb (Task.id t) taskId = false)
    by (intros t Ht; apply Hsole; cbn; apply in_or_app; now right).
  assert (Hx : String.eqb (Task.id task) taskId = true)
    by (rewrite Hid; apply String.eqb_refl).
  assert (Hfind : find (fun t => String.eqb (Task.id t) taskId) (tasks s)
                  = Some task).
  { rewrite Htasks, (find_app_unmatched _ _ _ Hb). cbn [find].
    now rewrite Hx. }
  unfold s', TaskManager.handleProcrastinate. rewrite Hfind.
  split; intros Hlevel.
  - replace (100 <=? Z.min 100 (Task.procrastinationLevel task + 20))%Z
      with false by (symmetry; apply Z.leb_gt; lia).
    replace (Z.min 100 (Task.procrastinationLevel task + 20))
      with (Task.procrastinationLevel task + 20)%Z by lia.
    set (patch := TaskUpdate.mk None None None None None None None None
                    None None (Some (Task.procrastinationLevel task + 20)%Z)
                    None).
    exists (applyUpdate task patch). split.
    + unfold updateTask. cbn [tasks setTasks]. rewrite Htasks.
      apply (map_on_sole (fun t => String.eqb (Task.id t) taskId)
               (fun t => applyUpdate t patch) before task after Hb Hx Ha).
    + now repeat split.
  - replace (100 <=? Z.min 100 (Task.procrastinationLevel task + 20))%Z
      with true by (symmetry; apply Z.leb_le; lia).
    exists (withStatus task running_away). split.
    + unfold makeTaskRunAway. rewrite tasks_updateAchievement.
      cbn [tasks setTasks]. rewrite Htasks.
      apply (map_on_sole (fun t => String.eqb (Task.id t) taskId)
               (fun t => withStatus t running_away)
               before task after Hb Hx Ha).
    + now repeat split.
Qed.

Lemma handleProcrastinate_rule_witness :
  taskSummary (procrastinated 3) = [(pending, 60%Z)]
  /\ exists task',
       tasks (TaskManager.handleProcrastinate 4 "task-1" (procrastinated 3))
       = [task']
       /\ Task.procrastinationLevel task' = 80%Z
       /\ Task.status task' = pending.
Proof.
  split; [reflexivity|].
  destruct (handleProcrastinate_rule 4 "task-1" (procrastinated 3) []
              (Task.mk "task-1" "Write report" "Quarterly numbers" pending 0
                 None None None 0 3 60 origin)
              []
              eq_refl eq_refl ltac:(intros t [])) as (Hlow & _).
  destruct (Hlow ltac:(vm_compute; reflexivity)) as (task' & H1 & H2 & H3 & _).
  exists task'. split; [exact H1|]. split; [exact H2 | exact H3].
Defined.

(** ** Achievements *)

Lemma achievementIds_updateAchievement now name s :
  achievementIds (achievements (updateAchievement now name s))
  = achievementIds (achievements s).
Proof.
  unfold achievementIds, updateAchievement.
  cbn [achievements setAchievements]. rewrite map_map.
  apply map_ext. intros a.
  now destruct (String.eqb (Achievement.id a) name).
Qed.

(** X23: No action adds, removes, renames or reorders an achievement: every
    store reached from the initial one holds the five predefined
    achievements, in their order. *)
Theorem achievements_are_the_predefined_ones l :
  achievementIds (achievements (performAll l initialStore))
  = ["first-task"; "five-tasks-completed"; "procrastination-master";
     "time-bender"; "deadline-warrior"]%string.
Proof.
  change (achievementIds (achievements (performAll l initialStore))
          = achievementIds (achievements initialStore)).
  generalize initialStore as s.
  induction l as [|a l IH]; intros s; [reflexivity|].
  cbn [performAll]. rewrite IH.
  destruct (achievements_after a s) as [-> | (now & name & ->)];
    [reflexivity | apply achievementIds_updateAchievement].
Qed.

(** ** The groups of the task list *)

(** X26: The three groups of the task list split the tasks: their sizes add up
    to the number of tasks, and a task's status decides the one group that
    shows it (pending and in-progress tasks share the first). *)
Theorem task_groups_partition l :
  (List.length (pendingTasks l) + List.length (completedTasks l)
   + List.length (runawayTasks l) = List.length l)%nat
  /\ forall t, In t l ->
       (In t (pendingTasks l) <->
        Task.status t = pending \/ Task.status t = in_progress)
       /\ (In t (completedTasks l) <-> Task.status t = completed)
       /\ (In t (runawayTasks l) <-> Task.status t = running_away).
Proof.
  split.
  - unfold pendingTasks, completedTasks, runawayTasks.
    induction l as [|t l IH]; [reflexivity|].
    cbn [filter]. destruct (Task.status t); cbn; lia.
  - intros t Ht. unfold pendingTasks, completedTasks, runawayTasks.
    rewrite !filter_In.
    destruct (Task.status t); cbn; intuition (auto; discriminate).
Qed.

End StoreExtra.

(** * What the landscape and the task objects show *)

Module ViewsExtra.

Import TaskStore App Views.

Lemma lengthQ_nonneg {A : Type} (l : list A) : 0 <= lengthQ l.
Proof.
  unfold lengthQ. change 0 with (inject_Z 0). rewrite <- Zle_Qle. lia.
Qed.

Lemma completed_at_most_all l : lengthQ (completedTasks l) <= lengthQ l.
Proof.
  unfold lengthQ, completedTasks. rewrite <- Zle_Qle.
  apply Nat2Z.inj_le. apply filter_length_le.
Qed.

Lemma completionRatio_range l :
  0 <= completionRatio l /\ completionRatio l <= 1.
Proof.
  unfold completionRatio.
  destruct (Qltb 0 (lengthQ l)) eqn:E; [|split; lra].
  apply Qltb_true in E.
  pose proof (lengthQ_nonneg (completedTasks l)) as H0.
  pose proof (completed_at_most_all l) as H1.
  split.
  - apply Qle_shift_div_l; [exact E | lra].
  - apply Qle_shift_div_r; [exact E | lra].
Qed.

(** X27: The focus mountain is between 1 and 4 units high, whatever the tasks:
    1 with no task or none completed, 4 when all are completed. *)
Theorem focusMountainHeight_range l :
  1 <= focusMountainHeight l /\ focusMountainHeight l <= 4.
Proof.
  unfold focusMountainHeight.
  destruct (completionRatio_range l). split; lra.
Qed.

Lemma totalTasksCompleted_reachable l :
  forall s,
    (0 <= ProductivityStats.totalTasksCompleted (productivityStats s))%Z ->
    (0 <= ProductivityStats.totalTasksCompleted
            (productivityStats (performAll l s)))%Z.
Proof.
  induction l as [|a l IH]; intros s Hs; [exact Hs|].
  cbn [performAll]. apply IH.
  rewrite StoreExtra.totalTasksCompleted_after. destruct a; lia.
Qed.

(** X28: In every store reached from the initial one, the landscape's
    productivity score lies between 0 and 1. *)
Theorem productivityScore_range l :
  let s := performAll l initialStore in
  0 <= productivityScore (tasks s) (productivityStats s)
  /\ productivityScore (tasks s) (productivityStats s) <= 1.
Proof.
  intros s. unfold productivityScore.
  pose proof (totalTasksCompleted_reachable l initialStore ltac:(cbn; lia))
    as Hn.
  fold s in Hn.
  set (n := inject_Z (ProductivityStats.totalTasksCompleted
                        (productivityStats s))).
  assert (Hn' : 0 <= n)
    by (unfold n; change 0 with (inject_Z 0); now rewrite <- Zle_Qle).
  set (d := Math_max 10 (lengthQ (tasks s) * (1 # 2))).
  assert (Hd : 0 < d).
  { pose proof (Math_max_lower 10 (lengthQ (tasks s) * (1 # 2))).
    fold d in H. lra. }
  assert (Hq : 0 <= n / d) by (apply Qle_shift_div_l; [exact Hd | lra]).
  unfold Math_min. destruct (Qle_bool 1 (n / d)) eqn:E.
  - split; lra.
  - apply Qle_bool_false in E. split; lra.
Qed.

(** X29: The urgency of a task is a number between 0 and 1 when its importance
    is at most 5, as the form's slider makes it. *)
Theorem calculateUrgency_range now task :
  (Task.importance task <= 5)%Z ->
  0 <= calculateUrgency now task /\ calculateUrgency now task <= 1.
Proof.
  intros Himp. unfold calculateUrgency.
  destruct (Task.deadline task) as [deadline|]; [|split; lra].
  assert (Hi : inject_Z (Task.importance task) <= 5)
    by (change 5 with (inject_Z 5); now rewrite <- Zle_Qle).
  cbv zeta. unfold Math_max. qcase; split; qlra.
Qed.

Lemma calculateUrgency_range_witness :
  let task := Task.mk "task-1" "Write report" "Quarterly numbers" pending 0
                (Some 90000000%Z) None None 0 3 0 (mkPosition 0 0 0) in
  0 <= calculateUrgency 20000000 task
  /\ calculateUrgency 20000000 task <= 1.
Proof.
  intros task.
  exact (calculateUrgency_range 20000000 task ltac:(cbn; lia)).
Defined.

(** X30: As time passes, the urgency of a task with a deadline never goes down
    (importance at most 5): it steps up when the deadline is a week away,
    again when it is a day away, and is 1 once the deadline has passed. *)
Theorem calculateUrgency_never_goes_down earlier later task :
  (earlier <= later)%Z -> (Task.importance task <= 5)%Z ->
  calculateUrgency earlier task <= calculateUrgency later task.
Proof.
  intros Htime Himp. unfold calculateUrgency.
  destruct (Task.deadline task) as [deadline|]; [|lra].
  assert (Hi : inject_Z (Task.importance task) <= 5)
    by (change 5 with (inject_Z 5); now rewrite <- Zle_Qle).
  assert (Hleft : inject_Z (deadline - later) <= inject_Z (deadline - earlier))
    by (rewrite <- Zle_Qle; lia).
  cbv zeta. unfold Math_max. qcase; qlra.
Qed.

Lemma calculateUrgency_never_goes_down_witness :
  let task := Task.mk "task-1" "Write report" "Quarterly numbers" pending 0
                (Some 90000000%Z) None None 0 3 0 (mkPosition 0 0 0) in
  calculateUrgency 0 task <= calculateUrgency 20000000 task.
Proof.
  intros task.
  exact (calculateUrgency_never_goes_down 0 20000000 task
           ltac:(lia) ltac:(cbn; lia)).
Defined.

End ViewsExtra.

(** * Two facts that hold of every action *)

Module StoreInvariants.

Import TaskStore App Scenarios.

(** X24: Once unlocked, an achievement stays unlocked: whatever the action, it
    keeps its place and its identifier and is still unlocked. *)
Theorem unlocked_achievements_stay_unlocked a s :
  unlockedKept (achievements s) (achievements (perform a s)).
Proof. apply StoreFacts.unlocked_stays_unlocked. Qed.

(** X25: On an identifier that no task has, [updateTask] (whatever the patch),
    [deleteTask] and the Procrastinate handler give back the store as it
    was. *)
Theorem unknown_ids_change_nothing id s :
  unknownTask id s ->
  (forall taskUpdate, updateTask id taskUpdate s = s)
  /\ deleteTask id s = s
  /\ (forall now, TaskManager.handleProcrastinate now id s = s).
Proof. apply StoreFacts.unknown_id_noop. Qed.

Lemma unknown_ids_change_nothing_witness :
  unknownTask "no-such-task" freshStore
  /\ updateTask "no-such-task" backToPending freshStore = freshStore
  /\ deleteTask "no-such-task" freshStore = freshStore
  /\ TaskManager.handleProcrastinate 7 "no-such-task" freshStore
     = freshStore.
Proof.
  assert (H : unknownTask "no-such-task" freshStore)
    by (intros t [<- | []]; reflexivity).
  split; [exact H|].
  destruct (unknown_ids_change_nothing "no-such-task" freshStore H)
    as (Hu & Hd & Hp).
  split; [exact (Hu backToPending)|]. split; [exact Hd | exact (Hp 7%Z)].
Defined.

End StoreInvariants.

(** * Procrastinating a fresh task *)

Module ProcrastinateFacts.

Import TaskStore App Scenarios Views TaskList.








End ProcrastinateFacts.
